(** * example_02/auto_update_machine.py: a model of the update script

    The script reads [./ansible.cfg] with Python 2.7's [ConfigParser],
    takes the second line of the host inventory file as the machine
    address, builds an [ssh] command line, asks for a key press and runs
    the command through the shell.

    Python 2 [str] values are byte strings, modelled by [string].  The
    effects of the script (file-system queries, console output, the
    read of the confirmation, the child process) are threaded through
    a state monad that records them in a trace; [sys.exit] and uncaught
    exceptions are outcomes of a computation. *)

From Stdlib Require Import ZArith Ascii.
From stdpp Require Import base strings list gmap.

Local Open Scope Z_scope.

(** ** Python 2 [str] methods used by the script and by [ConfigParser] *)

Module Py.

Definition newline : ascii := "010"%char.

(** The byte that no C string holds: the system calls and [execvp]
    take none with it. *)
Definition NUL : ascii := "000"%char.

(** [c.isspace()] on one byte in the C locale. *)
Definition isspace (c : ascii) : bool := Ascii.is_space c.

(** [s.lstrip()] *)
Fixpoint lstrip (s : string) : string :=
  match s with
  | String c s' => if isspace c then lstrip s' else s
  | EmptyString => EmptyString
  end.

(** [s.rstrip()] *)
Definition rstrip (s : string) : string :=
  String.rev (lstrip (String.rev s)).

(** [s.strip()] *)
Definition strip (s : string) : string := rstrip (lstrip s).

(** One byte of [s.lower()]. *)
Definition lower_ascii (c : ascii) : ascii :=
  let n := nat_of_ascii c in
  if (65 <=? n)%nat && (n <=? 90)%nat then ascii_of_nat (n + 32) else c.

(** [s.lower()] *)
Fixpoint lower (s : string) : string :=
  match s with
  | String c s' => String (lower_ascii c) (lower s')
  | EmptyString => EmptyString
  end.

(** [f.readlines()]: the lines of a file, each with its terminating
    newline; a last line without one is kept as it is. *)
Fixpoint readlines (s : string) : list string :=
  match s with
  | EmptyString => []
  | String c s' =>
      if Ascii.eqb c newline then String c EmptyString :: readlines s'
      else match readlines s' with
           | [] => [String c EmptyString]
           | l :: ls => String c l :: ls
           end
  end.

(** [c in s] for a one-byte [c]. *)
Fixpoint contains (c : ascii) (s : string) : bool :=
  match s with
  | String d s' => Ascii.eqb c d || contains c s'
  | EmptyString => false
  end.

(** [s.find(c)] for a one-byte [c] that occurs in [s]; [None] is
    Python's [-1]. *)
Fixpoint find (c : ascii) (s : string) : option nat :=
  match s with
  | String d s' => if Ascii.eqb c d then Some 0%nat else S <$> find c s'
  | EmptyString => None
  end.

(** [s[:n]] *)
Fixpoint take (n : nat) (s : string) : string :=
  match n, s with
  | S n', String c s' => String c (take n' s')
  | _, _ => EmptyString
  end.

(** [s[n:]] *)
Fixpoint drop (n : nat) (s : string) : string :=
  match n, s with
  | S n', String _ s' => drop n' s'
  | _, _ => s
  end.

(** [s[-1]] of a non-empty string. *)
Fixpoint last (s : string) : option ascii :=
  match s with
  | EmptyString => None
  | String c EmptyString => Some c
  | String _ s' => last s'
  end.

(** [sep.join(l)] *)
Fixpoint join (sep : string) (l : list string) : string :=
  match l with
  | [] => EmptyString
  | [x] => x
  | x :: l' => x +:+ sep +:+ join sep l'
  end.

(** Whether [s] is made of white space only. *)
Fixpoint all_space (s : string) : bool :=
  match s with
  | String c s' => isspace c && all_space s'
  | EmptyString => true
  end.

(** [s[0].isspace()], false of the empty string. *)
Definition starts_with_space (s : string) : bool :=
  match s with
  | String c _ => isspace c
  | EmptyString => false
  end.

(** [s[-1].isspace()], false of the empty string. *)
Definition ends_with_space (s : string) : bool :=
  match last s with
  | Some c => isspace c
  | None => false
  end.

(** [s + c] for one byte [c]. *)
Fixpoint snoc (s : string) (c : ascii) : string :=
  match s with
  | EmptyString => String c EmptyString
  | String d s' => String d (snoc s' c)
  end.

(** Decimal field names of a format string. *)
Fixpoint digits_go (acc : nat) (s : string) : option nat :=
  match s with
  | EmptyString => Some acc
  | String c s' =>
      match Ascii.is_nat c with
      | Some d => digits_go (10 * acc + d)%nat s'
      | None => None
      end
  end.

Definition digits (s : string) : option nat :=
  match s with
  | EmptyString => None
  | _ => digits_go 0%nat s
  end.

End Py.

(** ** Outcomes *)

(** The exceptions of [ConfigParser] (all subclasses of
    [ConfigParser.Error]). *)
Inductive ConfigParserError : Type :=
  | NoSectionError (section : string)
  | NoOptionError (opt section : string)
  | MissingSectionHeaderError (lineno : nat) (line : string)
  | ParsingError (errors : list (nat * string))   (* the lines as read *)
  | InterpolationSyntaxError (opt section : string)
  | InterpolationMissingOptionError (opt section reference : string)
  | InterpolationDepthError (opt section : string).

(** The exceptions that the script can meet. *)
Inductive exn : Type :=
  | IOError
  | IndexError
  | KeyError
  | ValueError
  | EOFError
  | AttributeError
  | TypeError
  | ConfigError (e : ConfigParserError).

(** What a call does: it returns, it leaves through [sys.exit(code)]
    (the [SystemExit] exception, which nothing in the script catches), or
    it raises an exception that nothing catches. *)
Inductive outcome (A : Type) : Type :=
  | Ret (a : A)
  | SystemExit (code : Z)
  | Raise (e : exn).
Arguments Ret {A} a.
Arguments SystemExit {A} code.
Arguments Raise {A} e.

#[global] Instance outcome_ret : MRet outcome := @Ret.
#[global] Instance outcome_bind : MBind outcome := fun A B f m =>
  match m with
  | Ret a => f a
  | SystemExit c => SystemExit c
  | Raise e => Raise e
  end.

(** The status the interpreter hands to the operating system: 0 when the
    script runs to its end, the argument of [sys.exit], and 1 after the
    traceback of an uncaught exception. *)
Definition exit_status {A} (o : outcome A) : Z :=
  match o with
  | Ret _ => 0
  | SystemExit c => c
  | Raise _ => 1
  end.

(** ** [str.format] *)

(** Whether the replacement fields seen so far were numbered by hand
    ([{0}]) or automatically ([{}]); Python refuses a mix. *)
Inductive numbering : Type :=
  | NumUnset
  | NumAuto (next : nat)
  | NumManual.

(** [kwargs[name]] *)
Fixpoint kwarg (name : string) (kwargs : list (string * string))
    : option string :=
  match kwargs with
  | [] => None
  | (k, v) :: kwargs' => if String.eqb k name then Some v else kwarg name kwargs'
  end.

(** The value of one replacement field.  Field names are the empty name,
    a decimal index, or a keyword; conversions and format specifications,
    which the script never uses, are looked up as keywords and fail. *)
Definition format_field (args : list string) (kwargs : list (string * string))
    (num : numbering) (name : string) : outcome (string * numbering) :=
  match name with
  | EmptyString =>
      match num with
      | NumManual => Raise ValueError
      | NumUnset =>
          match args !! 0%nat with
          | Some v => Ret (v, NumAuto 1)
          | None => Raise IndexError
          end
      | NumAuto i =>
          match args !! i with
          | Some v => Ret (v, NumAuto (S i))
          | None => Raise IndexError
          end
      end
  | _ =>
      match Py.digits name with
      | Some i =>
          match num with
          | NumAuto _ => Raise ValueError
          | _ =>
              match args !! i with
              | Some v => Ret (v, NumManual)
              | None => Raise IndexError
              end
          end
      | None =>
          match kwarg name kwargs with
          | Some v => Ret (v, num)
          | None => Raise KeyError
          end
      end
  end.

(** [field] is [Some name] while the scan is inside a replacement field. *)
Fixpoint format_go (args : list string) (kwargs : list (string * string))
    (num : numbering) (field : option string) (tpl : string) {struct tpl}
    : outcome string :=
  match field, tpl with
  | Some _, EmptyString => Raise ValueError
  | Some name, String c rest =>
      if Ascii.eqb c "}" then
        '(v, num') ← format_field args kwargs num name;
        s ← format_go args kwargs num' None rest;
        Ret (v +:+ s)
      else format_go args kwargs num (Some (Py.snoc name c)) rest
  | None, EmptyString => Ret EmptyString
  | None, String c rest =>
      if Ascii.eqb c "{" then
        match rest with
        | String d rest' =>
            if Ascii.eqb d "{" then
              s ← format_go args kwargs num None rest'; Ret (String c s)
            else format_go args kwargs num (Some EmptyString) rest
        | EmptyString => Raise ValueError
        end
      else if Ascii.eqb c "}" then
        match rest with
        | String d rest' =>
            if Ascii.eqb d "}" then
              s ← format_go args kwargs num None rest'; Ret (String c s)
            else Raise ValueError
        | EmptyString => Raise ValueError
        end
      else s ← format_go args kwargs num None rest; Ret (String c s)
  end.

(** [tpl.format( *args, **kwargs)] *)
Definition format (tpl : string) (args : list string)
    (kwargs : list (string * string)) : outcome string :=
  format_go args kwargs NumUnset None tpl.

(** ** The world of the script *)

(** What a path names.  [os.path.exists] holds of both; [open] succeeds
    on a regular file only. *)
Inductive node : Type :=
  | File (content : string)
  | Dir.

(** The observable actions, in the order in which they happen. *)
Inductive event : Type :=
  | EvExists (path : string)        (* os.path.exists(path) *)
  | EvOpen (path : string)          (* open(path) *)
  | EvPrint (text : string)         (* print text *)
  | EvInput (prompt : string)       (* raw_input(prompt) *)
  | EvCall (cmd : string).          (* subprocess.call(cmd, shell=True) *)

(** What the script finds around it and never changes: the file system
    and the status with which the shell returns from a command. *)
Record env : Type := Env {
  fs : gmap string node;
  child_status : string → Z
}.

(** What changes during a run: the lines still to come on standard
    input, and the trace of actions so far. *)
Record state : Type := State {
  stdin : list string;
  trace : list event
}.

Definition M (A : Type) : Type := env → state → outcome A * state.

#[global] Instance M_ret : MRet M := fun A a _ st => (Ret a, st).
#[global] Instance M_bind : MBind M := fun A B f m e st =>
  match m e st with
  | (Ret a, st') => f a e st'
  | (SystemExit c, st') => (SystemExit c, st')
  | (Raise x, st') => (Raise x, st')
  end.

Definition emit (ev : event) : M unit := fun _ st =>
  (Ret tt, State (stdin st) (trace st ++ [ev])).

(** A pure computation that may raise. *)
Definition lift {A} (o : outcome A) : M A := fun _ st => (o, st).

(** [sys.exit(code)] *)
Definition sys_exit {A} (code : Z) : M A := lift (SystemExit code).

(** [os.path.exists(path)].  The names in a file system hold no NUL
    byte: a path that names something is found, and of the others
    [os.stat] refuses one with a NUL byte with [TypeError], which the
    [os.path.exists] of Python 2.7 does not catch (it catches
    [os.error] only). *)
Definition os_path_exists (path : string) : M bool := fun e st =>
  (emit (EvExists path);;
   match fs e !! path with
   | Some _ => mret true
   | None =>
       if Py.contains Py.NUL path then lift (Raise TypeError) else mret false
   end) e st.

(** [open(path, 'r')] followed by reading the whole file.  A path with
    a NUL byte is refused with [TypeError] as by [os.stat]. *)
Definition open_read (path : string) : M string := fun e st =>
  (emit (EvOpen path);;
   match fs e !! path with
   | Some (File content) => mret content
   | Some Dir => lift (Raise IOError)
   | None =>
       lift (Raise (if Py.contains Py.NUL path then TypeError else IOError))
   end) e st.

(** [print text] *)
Definition print (text : string) : M unit := emit (EvPrint text).

(** [raw_input(prompt)]: the next line of standard input, [EOFError] at
    its end. *)
Definition raw_input (prompt : string) : M string := fun e st =>
  match stdin st with
  | line :: rest =>
      (Ret line, State rest (trace st ++ [EvInput prompt]))
  | [] => (Raise EOFError, State [] (trace st ++ [EvInput prompt]))
  end.

(** [subprocess.call(cmd, shell=True)]: the status of the child.  The
    command is an argument of the shell, [/bin/sh -c cmd]: one with a
    NUL byte cannot be passed to [execvp], the child is not started and
    the call raises [TypeError]. *)
Definition subprocess_call (cmd : string) : M Z := fun e st =>
  (emit (EvCall cmd);;
   if Py.contains Py.NUL cmd then lift (Raise TypeError)
   else mret (child_status e cmd)) e st.

(** ** Python 2.7's [ConfigParser] module

    The part of the standard library that the script calls: the reader
    of [RawConfigParser] and [SafeConfigParser.get] with its
    interpolation of [%(name)s] references. *)

Module ConfigParser.

Definition DEFAULTSECT : string := "DEFAULT".

(** A parser object.  A stored value is [None] for an option written
    without a value, which only a parser made with
    [allow_no_value=True] accepts. *)
Record RawConfigParser : Type := Parser {
  allow_no_value : bool;
  _sections : gmap string (gmap string (option string));
  _defaults : gmap string (option string)
}.

(** [SafeConfigParser()] *)
Definition SafeConfigParser : RawConfigParser := Parser false ∅ ∅.

(** [optionxform] *)
Definition optionxform (optionstr : string) : string := Py.lower optionstr.

(** [SECTCRE.match(line)], the regular expression [\[(?P<header>[^]]+)\]]:
    the text between the opening bracket and the first closing one,
    which must not be empty. *)
Definition SECTCRE (line : string) : option string :=
  match line with
  | String c rest =>
      if Ascii.eqb c "[" then
        match Py.find "]" rest with
        | Some (S n) => Some (Py.take (S n) rest)
        | _ => None
        end
      else None
  | EmptyString => None
  end.

(** Index of the first [:] or [=]. *)
Fixpoint find_vi (s : string) : option nat :=
  match s with
  | String c s' =>
      if Ascii.eqb c ":" || Ascii.eqb c "=" then Some 0%nat
      else S <$> find_vi s'
  | EmptyString => None
  end.

(** The group [\s*(?P<value>.* )$] after the separator: leading white
    space is skipped, and the value runs to the end of the line. *)
Definition value_group (rest : string) : option string :=
  match Py.lstrip rest with
  | EmptyString => Some EmptyString
  | r =>
      let v :=
        match Py.last r with
        | Some c =>
            if Ascii.eqb c Py.newline then Py.take (String.length r - 1) r
            else r
        | None => r
        end in
      if Py.contains Py.newline v then None else Some v
  end.

(** [_optcre.match(line)]: [OPTCRE],
    [(?P<option>[^:=\s][^:=]* )\s*(?P<vi>[:=])\s*(?P<value>.* )$],
    or with [allow_no_value] [OPTCRE_NV], in which the separator and
    the value are optional.  The result is the option group and the
    value group ([None] when there is no separator). *)
Definition OPTCRE (nv : bool) (line : string)
    : option (string * option string) :=
  match line with
  | String c _ =>
      if Py.isspace c then None
      else
        match find_vi line with
        | Some (S i) =>
            match value_group (Py.drop (S (S i)) line) with
            | Some v => Some (Py.take (S i) line, Some v)
            | None => None
            end
        | Some O => None
        | None => if nv then Some (line, None) else None
        end
  | EmptyString => None
  end.

(** The treatment of [;] in a value: it starts a comment when the
    byte before it is white space ([optval[pos-1]], which for [pos = 0]
    is the last byte of the value). *)
Definition strip_comment (optval : string) : string :=
  match Py.find ";" optval with
  | Some pos =>
      let before :=
        match pos with
        | O => Py.last optval
        | S p => String.get p optval
        end in
      match before with
      | Some c => if Py.isspace c then Py.take pos optval else optval
      | None => optval
      end
  | None => optval
  end.

(** The string of two double quotes, which stands for an empty value. *)
Definition two_quotes : string :=
  String "034"%char (String "034"%char EmptyString).

(** Where [cursect] points: the dictionary of defaults or the one of a
    section.  Both live in the parser, and [_read] updates them in
    place. *)
Inductive cursor : Type :=
  | InDefaults
  | InSection (sectname : string).

(** The local variables of [_read], with the dictionaries of the parser
    as they are while reading: a value is the list of its lines. *)
Record reading : Type := Reading {
  rd_sections : gmap string (gmap string (option (list string)));
  rd_defaults : gmap string (option (list string));
  cursect : option cursor;
  optname : option string;
  errors : list (nat * string)
}.

Definition cursect_dict (r : reading) (cur : cursor)
    : gmap string (option (list string)) :=
  match cur with
  | InDefaults => rd_defaults r
  | InSection s => default ∅ (rd_sections r !! s)
  end.

(** [cursect[name] = v] *)
Definition cursect_set (r : reading) (cur : cursor) (name : string)
    (v : option (list string)) (newname : option string) : reading :=
  match cur with
  | InDefaults =>
      Reading (rd_sections r) (<[name := v]> (rd_defaults r))
              (cursect r) newname (errors r)
  | InSection s =>
      Reading (<[s := <[name := v]> (cursect_dict r cur)]> (rd_sections r))
              (rd_defaults r) (cursect r) newname (errors r)
  end.

(** [line.strip() == '' or line[0] in '#;'] *)
Definition is_blank_or_comment (line : string) : bool :=
  bool_decide (Py.strip line = EmptyString)
  || match line with
     | String c _ => Ascii.eqb c "#" || Ascii.eqb c ";"
     | EmptyString => false
     end.

(** [line.split(None, 1)[0].lower() == 'rem' and line[0] in "rR"] *)
Definition is_rem (line : string) : bool :=
  match String.words line, line with
  | w :: _, String c _ =>
      bool_decide (Py.lower w = "rem") && (Ascii.eqb c "r" || Ascii.eqb c "R")
  | _, _ => false
  end.

(** A line that is not a continuation: a section header, an option,
    or a line that is neither. *)
Definition read_header_or_option (nv : bool) (lineno : nat) (line : string)
    (r : reading) : outcome reading :=
  match SECTCRE line with
  | Some sectname =>
      if bool_decide (is_Some (rd_sections r !! sectname)) then
        Ret (Reading (rd_sections r) (rd_defaults r)
                     (Some (InSection sectname)) None (errors r))
      else if bool_decide (sectname = DEFAULTSECT) then
        Ret (Reading (rd_sections r) (rd_defaults r)
                     (Some InDefaults) None (errors r))
      else
        Ret (Reading
               (<[sectname := {[ "__name__" := Some [sectname] ]}]>
                  (rd_sections r))
               (rd_defaults r) (Some (InSection sectname)) None (errors r))
  | None =>
      match cursect r with
      | None => Raise (ConfigError (MissingSectionHeaderError lineno line))
      | Some cur =>
          match OPTCRE nv line with
          | Some (opt, optval) =>
              let name := optionxform (Py.rstrip opt) in
              match optval with
              | Some v =>
                  let v := if Py.contains ";" v then strip_comment v else v in
                  let v := Py.strip v in
                  let v := if bool_decide (v = two_quotes)
                           then EmptyString else v in
                  Ret (cursect_set r cur name (Some [v]) (Some name))
              | None => Ret (cursect_set r cur name None (Some name))
              end
          | None =>
              (* not fatal: collected, and raised after the last line *)
              Ret (Reading (rd_sections r) (rd_defaults r) (cursect r)
                           (optname r) (errors r ++ [(lineno, line)]))
          end
      end
  end.

(** One turn of the loop of [_read], on line number [lineno]. *)
Definition read_line (nv : bool) (lineno : nat) (line : string)
    (r : reading) : outcome reading :=
  if is_blank_or_comment line then Ret r
  else if is_rem line then Ret r
  else
    match Py.starts_with_space line, cursect r, optname r with
    | true, Some cur, Some name =>
        (* a continuation line: cursect[optname].append(value) *)
        let value := Py.strip line in
        if bool_decide (value = EmptyString) then Ret r
        else
          match cursect_dict r cur !! name with
          | Some (Some lines) =>
              Ret (cursect_set r cur name (Some (lines ++ [value])) (Some name))
          | Some None => Raise AttributeError
          | None => Raise KeyError
          end
    | _, _, _ => read_header_or_option nv lineno line r
    end.

(** The loop of [_read] over the lines of the file. *)
Fixpoint read_lines (nv : bool) (lineno : nat) (lines : list string)
    (r : reading) : outcome reading :=
  match lines with
  | [] => Ret r
  | line :: lines' =>
      r' ← read_line nv (S lineno) line r;
      read_lines nv (S lineno) lines' r'
  end.

(** A stored string seen as the list of its lines, and back:
    ['\n'.join(val)]. *)
Definition dict_as_lines (d : gmap string (option string))
    : gmap string (option (list string)) :=
  (λ v : option string, (λ s, [s]) <$> v) <$> d.

Definition dict_join (d : gmap string (option (list string)))
    : gmap string (option string) :=
  (λ v : option (list string),
     Py.join (String Py.newline EmptyString) <$> v) <$> d.

(** [_read(fp, fpname)]: the values already in the parser are strings,
    the values read are lists of lines, joined once the loop is over;
    a string stands here for the list of itself. *)
Definition _read (self : RawConfigParser) (content : string)
    : outcome RawConfigParser :=
  let start :=
    Reading (dict_as_lines <$> _sections self)
            (dict_as_lines (_defaults self)) None None [] in
  r ← read_lines (allow_no_value self) 0 (Py.readlines content) start;
  match errors r with
  | [] =>
      Ret (Parser (allow_no_value self)
             (dict_join <$> rd_sections r) (dict_join (rd_defaults r)))
  | errs => Raise (ConfigError (ParsingError errs))
  end.

(** [has_section(section)] *)
Definition has_section (self : RawConfigParser) (section : string) : bool :=
  bool_decide (is_Some (_sections self !! section)).

(** [has_option(section, option)] *)
Definition has_option (self : RawConfigParser) (section opt : string)
    : bool :=
  if bool_decide (section = EmptyString) || bool_decide (section = DEFAULTSECT)
  then bool_decide (is_Some (_defaults self !! optionxform opt))
  else
    match _sections self !! section with
    | None => false
    | Some d =>
        bool_decide (is_Some (d !! optionxform opt))
        || bool_decide (is_Some (_defaults self !! optionxform opt))
    end.

(** [_Chainmap(sectiondict, self._defaults)[key]] *)
Definition chain_lookup (sectiondict defaults : gmap string (option string))
    (key : string) : option (option string) :=
  match sectiondict !! key with
  | Some v => Some v
  | None => defaults !! key
  end.

Definition MAX_INTERPOLATION_DEPTH : nat := 10.

(** [_interpvar_re.match(rest)], the regular expression
    [%\(([^)]+)\)s]: the name and what follows the reference. *)
Definition _interpvar_re (rest : string) : option (string * string) :=
  match rest with
  | String c (String d r) =>
      if Ascii.eqb c "%" && Ascii.eqb d "(" then
        match Py.find ")" r with
        | Some (S n) =>
            match Py.drop (S (S n)) r with
            | String s tail =>
                if Ascii.eqb s "s" then Some (Py.take (S n) r, tail) else None
            | EmptyString => None
            end
        | _ => None
        end
      else None
  | _ => None
  end.

(** The [while rest:] loop of [_interpolate_some]; every turn shortens
    [rest], so that [fuel] = the length of [rest] is enough.  [deeper]
    is the recursive call at the next depth. *)
Fixpoint interpolate_loop (map : string → option (option string))
    (opt section : string) (deeper : string → outcome string)
    (fuel : nat) (rest : string) : outcome string :=
  match fuel, rest with
  | _, EmptyString => Ret EmptyString
  | O, _ => Ret EmptyString
  | S fuel', _ =>
      match Py.find "%" rest with
      | None => Ret rest
      | Some p =>
          let rest1 := Py.drop p rest in
          s ← match String.get 1 rest1 with
              | Some c =>
                  if Ascii.eqb c "%" then
                    t ← interpolate_loop map opt section deeper fuel'
                          (Py.drop 2 rest1);
                    Ret (String "%" t)
                  else if Ascii.eqb c "(" then
                    match _interpvar_re rest1 with
                    | None =>
                        Raise (ConfigError
                                 (InterpolationSyntaxError opt section))
                    | Some (name, rest2) =>
                        let var := optionxform name in
                        match map var with
                        | None =>
                            Raise (ConfigError
                                     (InterpolationMissingOptionError
                                        opt section var))
                        | Some None => Raise TypeError
                        | Some (Some v) =>
                            x ← (if Py.contains "%" v then deeper v else Ret v);
                            t ← interpolate_loop map opt section deeper
                                  fuel' rest2;
                            Ret (x +:+ t)
                        end
                    end
                  else Raise (ConfigError
                                (InterpolationSyntaxError opt section))
              | None =>
                  Raise (ConfigError (InterpolationSyntaxError opt section))
              end;
          Ret (Py.take p rest +:+ s)
      end
  end.

(** [_interpolate_some(option, accum, rest, section, map, depth)];
    [left] counts the depths still allowed, [MAX_INTERPOLATION_DEPTH]
    of them at depth 1. *)
Fixpoint _interpolate_some (map : string → option (option string))
    (opt section : string) (left : nat) (rest : string)
    : outcome string :=
  match left with
  | O => Raise (ConfigError (InterpolationDepthError opt section))
  | S left' =>
      interpolate_loop map opt section
        (_interpolate_some map opt section left')
        (String.length rest) rest
  end.

(** [SafeConfigParser._interpolate(section, option, rawval, vars)] *)
Definition _interpolate (map : string → option (option string))
    (section opt rawval : string) : outcome string :=
  _interpolate_some map opt section MAX_INTERPOLATION_DEPTH rawval.

(** [get(section, option)]; the result is [None] for Python's [None]. *)
Definition get (self : RawConfigParser) (section opt : string)
    : outcome (option string) :=
  sectiondict ←
    match _sections self !! section with
    | Some d => Ret d
    | None =>
        if bool_decide (section ≠ DEFAULTSECT)
        then Raise (ConfigError (NoSectionError section))
        else Ret ∅
    end;
  let d := chain_lookup sectiondict (_defaults self) in
  let opt := optionxform opt in
  match d opt with
  | None => Raise (ConfigError (NoOptionError opt section))
  | Some None => Ret None
  | Some (Some value) =>
      s ← _interpolate d section opt value; Ret (Some s)
  end.

(** [read(filename)] for one file name: a file that cannot be opened
    ([IOError]) is passed over in silence; the [TypeError] of [open] on
    a name with a NUL byte is not caught. *)
Definition read (self : RawConfigParser) (filename : string)
    : M RawConfigParser := fun e st =>
  (emit (EvOpen filename);;
   match fs e !! filename with
   | Some (File content) => lift (_read self content)
   | Some Dir => mret self
   | None =>
       if Py.contains Py.NUL filename then lift (Raise TypeError)
       else mret self
   end) e st.

End ConfigParser.

(** The string of one newline. *)
Definition nl : string := String Py.newline EmptyString.

(** ** The script *)

Definition ANSIBLE_CFG : string := "./ansible.cfg".

Definition BYPASS_PHRASE : string := "
        If you want to bypass the configuration, we're only looking for
        the pem file path and the machine address. Then, we'll issue
        this command (which you can do manually):
        ssh -i {pem_file_path} ec2-user@{machine_address}

        But, you may as well do the configuration. As, you'll need it
        for most of the other examples: `cd ..; python configure.py`
".

Definition config_not_found_text : string := "
        The configuration file can't be found. Read the configuration
        instructions in README.md and run `python configure.py`.

        {0}
        ".

Definition hostfile_not_found_text : string := "
        The hostnames couldn't be read from the webservers
        section of this file '{0}'.

        {1}
        ".

Definition command_line_text : string := "

    This is the command line you would need to update the operating
    system for this instance:

    {0}

    Press the RETURN to execute the command now
    (and connect to the machine)".

Definition command_to_execute_text : string := "
Command to execute: {}

".

(** How Python writes a value that may be [None] into a string. *)
Definition str (v : option string) : string :=
  match v with
  | Some s => s
  | None => "None"
  end.

(** Read the ansible.cfg file and parse hostfile pathname. *)
Definition get_private_key_and_hostfile : M (option string * string) :=
  found ← os_path_exists ANSIBLE_CFG;
  (if negb found then
     text ← lift (format config_not_found_text [BYPASS_PHRASE] []);
     print text;;
     sys_exit 1
   else mret tt);;
  config ← ConfigParser.read ConfigParser.SafeConfigParser "./ansible.cfg";
  hostfile ← lift (ConfigParser.get config "defaults" "hostfile");
  match hostfile with
  | None =>
      print "We can't read the hostfile from ansible.cfg";;
      sys_exit 2
  | Some hostfile =>
      private_key ← lift (ConfigParser.get config "defaults" "private_key_file");
      mret (private_key, hostfile)
  end.

(** Crudely parse hostname from hostfile. *)
Definition get_host (hostfile : string) : M string :=
  found ← os_path_exists hostfile;
  (if negb found then
     text ← lift (format hostfile_not_found_text [hostfile; BYPASS_PHRASE] []);
     print text;;
     sys_exit 3
   else mret tt);;
  content ← open_read hostfile;
  let data := Py.readlines content in
  match data !! 1%nat with
  | Some line => mret (Py.strip line)
  | None => lift (Raise IndexError)
  end.

(** The two command lines that [example_02] builds. *)
Definition old_cmd (pem_file_path machine_address : string) : outcome string :=
  format "ssh -i {pem_file_path} ec2-user@{machine_address}" []
    [("pem_file_path", pem_file_path); ("machine_address", machine_address)].

Definition new_cmd (pem_file_path machine_address : string) : outcome string :=
  old ← old_cmd pem_file_path machine_address;
  format "{0} -t 'sudo yum update -y'" [old] [].

(** An example to show how one executes remote commands via ssh. *)
Definition example_02 (pem_file_path machine_address : string) : M unit :=
  cmd ← lift (new_cmd pem_file_path machine_address);
  text ← lift (format command_line_text [cmd] []);
  print text;;
  raw_input "--> ";;
  text ← lift (format command_to_execute_text [cmd] []);
  print text;;
  subprocess_call cmd;;
  print nl.

(** The body of [if __name__ == '__main__']. *)
Definition main : M unit :=
  '(private_key, hostfile) ← get_private_key_and_hostfile;
  machine_address ← get_host hostfile;
  example_02 (str private_key) machine_address.

(** A run from an empty trace. *)
Definition run {A} (m : M A) (e : env) (input : list string) : outcome A * state :=
  m e (State input []).

(** The commands handed to the shell during a run. *)
Definition calls (t : list event) : list string :=
  omap (λ ev, match ev with EvCall cmd => Some cmd | _ => None end) t.

(** The commands for which the shell was started: those of [calls]
    that [execvp] takes. *)
Definition spawned (t : list event) : list string :=
  omap (λ ev, match ev with
              | EvCall cmd => if Py.contains Py.NUL cmd then None else Some cmd
              | _ => None
              end) t.

(** The files opened during a run. *)
Definition opened (t : list event) : list string :=
  omap (λ ev, match ev with EvOpen path => Some path | _ => None end) t.

(** ** What the properties speak of *)

(** The command line of the specification. *)
Definition update_cmd (key_path address : string) : string :=
  "ssh -i " +:+ key_path +:+ " ec2-user@" +:+ address
  +:+ " -t 'sudo yum update -y'".

(** [address] is [line] with the white space around it removed, and
    nothing else. *)
Definition trimmed (line address : string) : Prop :=
  ∃ l r,
    line = l +:+ address +:+ r
    ∧ Py.all_space l = true ∧ Py.all_space r = true
    ∧ Py.starts_with_space address = false
    ∧ Py.ends_with_space address = false.

(** What [config.read('./ansible.cfg')] makes of a fresh parser, by what
    the path names. *)
Definition config_of (n : node) : outcome ConfigParser.RawConfigParser :=
  match n with
  | File content => ConfigParser._read ConfigParser.SafeConfigParser content
  | Dir => Ret ConfigParser.SafeConfigParser
  end.

(** A line holds a newline at its end only. *)
Definition one_line (l : string) : Prop :=
  l ≠ EmptyString ∧
  ∀ i, String.get i l = Some Py.newline → S i = String.length l.

(** The state once the events [evs] have happened. *)
Definition state_after (st : state) (evs : list event) : state :=
  State (stdin st) (trace st ++ evs).

(** The scenario of the specification, and variations of it. *)
Definition sample_cfg : string :=
  "[defaults]" +:+ nl +:+ "hostfile=/tmp/hosts" +:+ nl
  +:+ "private_key_file=/tmp/key.pem".

Definition sample_env : env :=
  Env {[ "./ansible.cfg" := File sample_cfg;
         "/tmp/hosts" := File ("[webservers]" +:+ nl +:+ "10.0.0.5") ]}
      (λ _, 0).

Definition env_without_hosts : env :=
  Env {[ "./ansible.cfg" := File sample_cfg ]} (λ _, 0).

Definition env_one_line : env :=
  Env {[ "/tmp/hosts" := File ("10.0.0.5" +:+ nl) ]} (λ _, 0).

Definition env_short_hosts : env :=
  Env {[ "./ansible.cfg" := File sample_cfg;
         "/tmp/hosts" := File ("10.0.0.5" +:+ nl) ]}
      (λ _, 0).

Definition env_no_section : env :=
  Env {[ "./ansible.cfg" := File ("[other]" +:+ nl +:+ "hostfile=/tmp/hosts" +:+ nl) ]}
      (λ _, 0).

Definition env_no_private_key : env :=
  Env {[ "./ansible.cfg" := File ("[defaults]" +:+ nl +:+ "hostfile=/tmp/hosts" +:+ nl) ]}
      (λ _, 0).

Definition env_no_hostfile_key : env :=
  Env {[ "./ansible.cfg" :=
           File ("[defaults]" +:+ nl +:+ "private_key_file=/tmp/key.pem" +:+ nl) ]}
      (λ _, 0).

(** The option is written in the section itself, whatever [[DEFAULT]]
    holds. *)
Definition section_holds (config : ConfigParser.RawConfigParser)
    (section opt : string) : bool :=
  match ConfigParser._sections config !! section with
  | Some d => bool_decide (is_Some (d !! ConfigParser.optionxform opt))
  | None => false
  end.

(** A configuration whose [private_key_file] comes from [[DEFAULT]]. *)
Definition env_default_key : env :=
  Env {[ "./ansible.cfg" :=
           File ("[DEFAULT]" +:+ nl +:+ "private_key_file=/k" +:+ nl
                 +:+ "[defaults]" +:+ nl +:+ "hostfile=/h" +:+ nl) ]}
      (λ _, 0).

(** A path and an address with a NUL byte, and the worlds in which the
    script reads them: the path from the configuration, the address from
    the host file. *)
Definition NUL_path : string := "/tmp/ho" +:+ String Py.NUL "sts".

Definition NUL_address : string := "10.0.0" +:+ String Py.NUL ".5".

Definition env_NUL_path : env :=
  Env {[ "./ansible.cfg" :=
           File ("[defaults]" +:+ nl +:+ "hostfile=" +:+ NUL_path +:+ nl
                 +:+ "private_key_file=/tmp/key.pem" +:+ nl) ]}
      (λ _, 0).

Definition env_NUL_address : env :=
  Env {[ "./ansible.cfg" := File sample_cfg;
         "/tmp/hosts" := File ("[webservers]" +:+ nl +:+ NUL_address +:+ nl) ]}
      (λ _, 0).

(** What the script finds at the path of the configuration holds no
    section: a directory, or a file of blank lines and comments. *)
Definition without_content (n : node) : Prop :=
  match n with
  | Dir => True
  | File content =>
      Forall (λ l, ConfigParser.is_blank_or_comment l = true)
        (Py.readlines content)
  end.

(** Worlds with a configuration without content, with a directory for
    host file, and with a blank second line in the host file. *)
Definition env_cfg_dir : env := Env {[ "./ansible.cfg" := Dir ]} (λ _, 0).

Definition env_cfg_comments : env :=
  Env {[ "./ansible.cfg" :=
           File ("# no settings yet" +:+ nl +:+ nl +:+ "; none" +:+ nl) ]}
      (λ _, 0).

Definition env_hosts_dir : env :=
  Env {[ "./ansible.cfg" := File sample_cfg; "/tmp/hosts" := Dir ]} (λ _, 0).

Definition env_blank_second : env :=
  Env {[ "/tmp/hosts" := File ("[webservers]" +:+ nl +:+ "  " +:+ nl) ]}
      (λ _, 0).

(** A value that the reader takes as it is written: no white space
    around it, one line, no comment sign, no reference, and not the
    two quotes that stand for the empty value. *)
Definition plain (v : string) : bool :=
  bool_decide (Py.strip v = v)
  && negb (Py.contains Py.newline v)
  && negb (Py.contains ";" v)
  && negb (Py.contains "%" v)
  && negb (bool_decide (v = ConfigParser.two_quotes)).

(** The name of an option as it can start a line: no white space, comment
    sign, bracket or separator in front, no separator inside, nothing for
    [rstrip] to remove, and not the start of a [rem] line. *)
Definition plain_name (name : string) : bool :=
  match name with
  | String c _ =>
      negb (Py.isspace c)
      && negb (Ascii.eqb c "#" || Ascii.eqb c ";")
      && negb (Ascii.eqb c "[")
      && negb (Ascii.eqb c "r" || Ascii.eqb c "R")
      && bool_decide (ConfigParser.find_vi name = None)
      && bool_decide (Py.rstrip name = name)
      && negb (Py.contains Py.newline name)
  | EmptyString => false
  end.

(** What stands between the name of an option and its value: [=] or
    [:], with blanks on either side. *)
Record separator : Type := Separator {
  before : string;
  sign : ascii;
  after : string
}.

(** The separator as it is written. *)
Definition sep_text (s : separator) : string :=
  before s +:+ String (sign s) (after s).

(** A separator on one line: blanks, the sign, blanks. *)
Definition plain_sep (s : separator) : bool :=
  Py.all_space (before s) && negb (Py.contains Py.newline (before s))
  && (Ascii.eqb (sign s) ":" || Ascii.eqb (sign s) "=")
  && Py.all_space (after s) && negb (Py.contains Py.newline (after s)).

(** The text of the configuration: a [defaults] section with the two
    options, the last line with or without its terminator. *)
Definition plain_cfg (sep1 sep2 : separator)
    (hostfile private_key tail : string) : string :=
  "[defaults]" +:+ nl
  +:+ ("hostfile" +:+ sep_text sep1 +:+ hostfile) +:+ nl
  +:+ ("private_key_file" +:+ sep_text sep2 +:+ private_key) +:+ tail.

(** The local variables of [_read] after the line [[defaults]] of a file
    read into a fresh parser. *)
Definition after_header : ConfigParser.reading :=
  ConfigParser.Reading
    {[ "defaults" := {[ "__name__" := Some ["defaults"] ]} ]} ∅
    (Some (ConfigParser.InSection "defaults")) None [].

(** The parser after the file of plain values. *)
Definition plain_parser (hostfile private_key : string)
    : ConfigParser.RawConfigParser :=
  ConfigParser.Parser false
    {[ "defaults" := {[ "__name__" := Some "defaults";
                        "hostfile" := Some hostfile;
                        "private_key_file" := Some private_key ]} ]}
    ∅.

(** Further worlds: a configuration with blanks around the separators,
    and one with a percent sign in the host file path. *)
Definition env_spaced_cfg : env :=
  Env {[ "./ansible.cfg" :=
           File (plain_cfg (Separator " " "=" " ") (Separator EmptyString ":" " ")
                   "/etc/ansible/hosts" "/home/me/aws key.pem" nl) ]}
      (λ _, 0).

(** A [%] that is followed neither by [%] nor by [(]: the first one of
    the value. *)
Definition lone_percent (v : string) : bool :=
  match Py.find "%" v with
  | Some p =>
      match String.get (S p) v with
      | Some c => negb (Ascii.eqb c "%") && negb (Ascii.eqb c "(")
      | None => true
      end
  | None => false
  end.

Definition env_percent : env :=
  Env {[ "./ansible.cfg" :=
           File ("[defaults]" +:+ nl +:+ "hostfile=/tmp/100%/hosts" +:+ nl
                 +:+ "private_key_file=/tmp/key.pem" +:+ nl) ]}
      (λ _, 0).

Section invariants.
Import ConfigParser.

(** The outcome is a value with property [P] or an exception of
    [ConfigParser]. *)
Definition cfg_only {A} (P : A → Prop) (o : outcome A) : Prop :=
  match o with
  | Ret a => P a
  | Raise (ConfigError _) => True
  | _ => False
  end.

(** A dictionary without a [None] value. *)
Definition no_None {V} (d : gmap string (option V)) : Prop :=
  ∀ k, d !! k ≠ Some None.

(** What holds of the local variables of [_read] in a parser made
    without [allow_no_value]: no [None] is stored, and [optname] names
    an option of the dictionary that [cursect] points to. *)
Record reading_ok (r : reading) : Prop := ReadingOk {
  ok_defaults : no_None (rd_defaults r);
  ok_sections : ∀ s d, rd_sections r !! s = Some d → no_None d;
  ok_optname : ∀ cur name,
    cursect r = Some cur → optname r = Some name →
    is_Some (cursect_dict r cur !! name)
}.

(** A parser made without [allow_no_value] that stores no [None]. *)
Record parser_ok (c : RawConfigParser) : Prop := ParserOk {
  ok_flag : allow_no_value c = false;
  ok_parser_defaults : no_None (_defaults c);
  ok_parser_sections : ∀ s d, _sections c !! s = Some d → no_None d
}.

End invariants.

(** * Properties *)

Import ConfigParser.

Ltac run_M :=
  cbv [mbind M_bind mret M_ret lift print emit raw_input subprocess_call
       sys_exit os_path_exists open_read]; cbn.

(** ** The models at work *)

Example format_positional :
  format "{0} -t '{1}'" ["a"; "b"] [] = Ret "a -t 'b'".
Proof. reflexivity. Qed.

Example format_auto : format "x{}y{}" ["1"; "2"] [] = Ret "x1y2".
Proof. reflexivity. Qed.

Example format_keyword :
  format "ssh -i {k} u@{m}" [] [("k", "key"); ("m", "host")]
  = Ret "ssh -i key u@host".
Proof. reflexivity. Qed.

Example format_mixed : format "{}{0}" ["1"] [] = Raise ValueError.
Proof. reflexivity. Qed.

Example readlines_two :
  Py.readlines ("[webservers]" +:+ String Py.newline "10.0.0.5")
  = ["[webservers]" +:+ String Py.newline EmptyString; "10.0.0.5"].
Proof. reflexivity. Qed.

Example sample_cfg_hostfile :
  (c ← ConfigParser._read ConfigParser.SafeConfigParser sample_cfg;
   ConfigParser.get c "defaults" "hostfile") = Ret (Some "/tmp/hosts").
Proof. vm_compute. reflexivity. Qed.

Example sample_cfg_interpolated :
  (c ← ConfigParser._read ConfigParser.SafeConfigParser
         ("[DEFAULT]" +:+ nl +:+ "Home : /srv ; where" +:+ nl +:+
          "[defaults]" +:+ nl +:+ "hostfile = %(home)s/hosts" +:+ nl +:+
          "  100%%" +:+ nl);
   ConfigParser.get c "defaults" "HostFile")
  = Ret (Some ("/srv/hosts" +:+ nl +:+ "100%")).
Proof. vm_compute. reflexivity. Qed.

Example sample_cfg_no_header :
  ConfigParser._read ConfigParser.SafeConfigParser ("hostfile=/tmp/hosts" +:+ nl)
  = Raise (ConfigError (MissingSectionHeaderError 1 ("hostfile=/tmp/hosts" +:+ nl))).
Proof. vm_compute. reflexivity. Qed.

Example sample_run :
  let '(o, st) := run main sample_env [EmptyString] in
  o = Ret tt ∧
  calls (trace st) = ["ssh -i /tmp/key.pem ec2-user@10.0.0.5 -t 'sudo yum update -y'"].
Proof. vm_compute. split; reflexivity. Qed.

(** ** Strings *)

Lemma string_app_nil_r (s : string) : s +:+ EmptyString = s.
Proof.
  induction s as [|c s IH]; [reflexivity|].
  change (String c (s +:+ EmptyString) = String c s). by rewrite IH.
Qed.

Lemma string_app_assoc (s1 s2 s3 : string) : (s1 +:+ s2) +:+ s3 = s1 +:+ s2 +:+ s3.
Proof.
  induction s1 as [|c s1 IH]; [reflexivity|].
  change (String c ((s1 +:+ s2) +:+ s3) = String c (s1 +:+ s2 +:+ s3)).
  by rewrite IH.
Qed.

Lemma string_app_cons (c : ascii) (s t : string) :
  String c s +:+ t = String c (s +:+ t).
Proof. reflexivity. Qed.

Lemma string_rev_app_eq (s acc : string) :
  String.rev_app s acc = String.rev s +:+ acc.
Proof.
  revert acc. induction s as [|c s IH]; intros acc; [reflexivity|].
  unfold String.rev. cbn [String.rev_app].
  rewrite IH, (IH (String c EmptyString)), string_app_assoc. reflexivity.
Qed.

Lemma string_rev_cons (c : ascii) (s : string) :
  String.rev (String c s) = String.rev s +:+ String c EmptyString.
Proof. unfold String.rev at 1. cbn [String.rev_app]. apply string_rev_app_eq. Qed.

Lemma string_rev_app_distr (s t : string) :
  String.rev (s +:+ t) = String.rev t +:+ String.rev s.
Proof.
  induction s as [|c s IH].
  - change (EmptyString +:+ t) with t. by rewrite string_app_nil_r.
  - rewrite string_app_cons, !string_rev_cons, IH, string_app_assoc. reflexivity.
Qed.

Lemma string_rev_involutive (s : string) : String.rev (String.rev s) = s.
Proof.
  induction s as [|c s IH]; [reflexivity|].
  rewrite string_rev_cons, string_rev_app_distr, IH. reflexivity.
Qed.

Lemma all_space_app (s t : string) :
  Py.all_space (s +:+ t) = Py.all_space s && Py.all_space t.
Proof.
  induction s as [|c s IH]; [reflexivity|].
  rewrite string_app_cons. cbn [Py.all_space]. by rewrite IH, andb_assoc.
Qed.

Lemma all_space_rev (s : string) : Py.all_space (String.rev s) = Py.all_space s.
Proof.
  induction s as [|c s IH]; [reflexivity|].
  rewrite string_rev_cons, all_space_app, IH. cbn. rewrite andb_true_r. apply andb_comm.
Qed.

Lemma last_snoc (s : string) (c : ascii) :
  Py.last (s +:+ String c EmptyString) = Some c.
Proof.
  induction s as [|d s IH]; [reflexivity|].
  rewrite string_app_cons. cbn [Py.last]. rewrite IH.
  destruct (s +:+ String c EmptyString) eqn:Hs; [|done].
  destruct s; discriminate.
Qed.

Lemma ends_with_space_rev (s : string) :
  Py.ends_with_space (String.rev s) = Py.starts_with_space s.
Proof.
  destruct s as [|c s]; [reflexivity|].
  unfold Py.ends_with_space. by rewrite string_rev_cons, last_snoc.
Qed.

Lemma lstrip_spec (s : string) :
  ∃ l, s = l +:+ Py.lstrip s ∧ Py.all_space l = true
       ∧ Py.starts_with_space (Py.lstrip s) = false.
Proof.
  induction s as [|c s (l & Hl & Hsp & Hst)].
  - by exists EmptyString.
  - cbn [Py.lstrip]. destruct (Py.isspace c) eqn:Hc.
    + exists (String c l). rewrite string_app_cons, <- Hl. cbn. by rewrite Hc.
    + exists EmptyString. cbn. by rewrite Hc.
Qed.

Lemma rstrip_spec (s : string) :
  ∃ r, s = Py.rstrip s +:+ r ∧ Py.all_space r = true
       ∧ Py.ends_with_space (Py.rstrip s) = false.
Proof.
  destruct (lstrip_spec (String.rev s)) as (l & Hl & Hsp & Hst).
  exists (String.rev l). unfold Py.rstrip. split; [|split].
  - rewrite <- string_rev_app_distr, <- Hl. by rewrite string_rev_involutive.
  - by rewrite all_space_rev.
  - by rewrite ends_with_space_rev.
Qed.

Lemma starts_with_space_prefix (s r : string) :
  Py.starts_with_space (s +:+ r) = false → Py.starts_with_space s = false.
Proof. by destruct s. Qed.

(** [strip] removes white space, and only white space, from both ends. *)
Lemma strip_spec (s : string) : trimmed s (Py.strip s).
Proof.
  destruct (lstrip_spec s) as (l & Hl & Hsl & Hst).
  destruct (rstrip_spec (Py.lstrip s)) as (r & Hr & Hsr & Hen).
  exists l, r. unfold Py.strip. repeat split; try done.
  - by rewrite <- Hr.
  - rewrite Hr in Hst. by apply starts_with_space_prefix in Hst.
Qed.

(** The lines of a file, put end to end, are the file. *)
Lemma readlines_concat (s : string) :
  foldr String.append EmptyString (Py.readlines s) = s.
Proof.
  induction s as [|c s IH]; [reflexivity|].
  cbn [Py.readlines]. destruct (Ascii.eqb c Py.newline).
  - cbn [foldr]. by rewrite IH.
  - destruct (Py.readlines s) as [|l ls]; cbn [foldr] in *.
    + by rewrite <- IH.
    + by rewrite string_app_cons, IH.
Qed.

Lemma readlines_one_line (s : string) : Forall one_line (Py.readlines s).
Proof.
  induction s as [|c s IH]; [constructor|].
  cbn [Py.readlines]. destruct (Ascii.eqb c Py.newline) eqn:Hc.
  - constructor; [|done]. split; [done|]. intros [|i]; cbn; [done|].
    by destruct i.
  - destruct (Py.readlines s) as [|l ls].
    + constructor; [|done]. split; [done|]. intros [|i]; cbn.
      * intros [= ->]. by rewrite Ascii.eqb_refl in Hc.
      * by destruct i.
    + inversion IH as [|? ? [Hne Hl] Hls]; subst. constructor; [|done].
      split; [done|]. intros [|i]; cbn.
      * intros [= ->]. by rewrite Ascii.eqb_refl in Hc.
      * intros Hi. by rewrite (Hl i Hi).
Qed.

(** ** Running the primitives *)

Lemma bind_run {A B} (m : M A) (f : A → M B) (e : env) (st : state) :
  (m ≫= f) e st =
  match m e st with
  | (Ret a, st') => f a e st'
  | (SystemExit c, st') => (SystemExit c, st')
  | (Raise x, st') => (Raise x, st')
  end.
Proof. reflexivity. Qed.

Lemma os_path_exists_run (path : string) (e : env) (st : state) :
  os_path_exists path e st =
  (match fs e !! path with
   | Some _ => Ret true
   | None => if Py.contains Py.NUL path then Raise TypeError else Ret false
   end, State (stdin st) (trace st ++ [EvExists path])).
Proof.
  unfold os_path_exists. rewrite bind_run. cbn.
  destruct (fs e !! path); [reflexivity|].
  destruct (Py.contains Py.NUL path); reflexivity.
Qed.

Lemma open_read_run (path : string) (e : env) (st : state) :
  open_read path e st =
  (match fs e !! path with
   | Some (File content) => Ret content
   | Some Dir => Raise IOError
   | None => Raise (if Py.contains Py.NUL path then TypeError else IOError)
   end, State (stdin st) (trace st ++ [EvOpen path])).
Proof.
  unfold open_read. rewrite bind_run. cbn.
  destruct (fs e !! path) as [[content|]|]; reflexivity.
Qed.

Lemma calls_app (t1 t2 : list event) : calls (t1 ++ t2) = calls t1 ++ calls t2.
Proof. apply omap_app. Qed.

Lemma opened_app (t1 t2 : list event) :
  opened (t1 ++ t2) = opened t1 ++ opened t2.
Proof. apply omap_app. Qed.


(** ** The reader of [ConfigParser] stores no [None]

    A parser made without [allow_no_value] never stores [None], neither
    while it reads nor afterwards, and [get] never returns it. *)

Lemma cfg_only_bind {A B} (P : A → Prop) (Q : B → Prop)
    (m : outcome A) (f : A → outcome B) :
  cfg_only P m → (∀ a, P a → cfg_only Q (f a)) → cfg_only Q (m ≫= f).
Proof. destruct m as [a|c|[]]; cbn; try done. intros HP Hf. by apply Hf. Qed.

Lemma no_None_empty {V} : no_None (∅ : gmap string (option V)).
Proof. intros k. by rewrite lookup_empty. Qed.

Lemma no_None_insert {V} (d : gmap string (option V)) (k : string) (v : V) :
  no_None d → no_None (<[k := Some v]> d).
Proof.
  intros Hd k'. destruct (decide (k = k')) as [->|Hne].
  - by rewrite lookup_insert_eq.
  - rewrite lookup_insert_ne; [apply Hd | done].
Qed.

Lemma no_None_fmap {V W} (f : V → W) (d : gmap string (option V)) :
  no_None d → no_None ((λ v : option V, f <$> v) <$> d).
Proof.
  intros Hd k. rewrite lookup_fmap.
  destruct (d !! k) as [[v|]|] eqn:Hk; cbn; try done.
  by apply Hd in Hk.
Qed.

Lemma cursect_dict_ok (r : reading) (cur : cursor) :
  reading_ok r → no_None (cursect_dict r cur).
Proof.
  intros [Hd Hs _]. destruct cur as [|s]; cbn; [done|].
  destruct (rd_sections r !! s) as [d|] eqn:Hsd; cbn; [eauto | apply no_None_empty].
Qed.

Lemma cursect_set_ok (r : reading) (cur : cursor) (name : string)
    (v : list string) :
  reading_ok r → cursect r = Some cur →
  reading_ok (cursect_set r cur name (Some v) (Some name)).
Proof.
  intros Hr Hcur. pose proof (cursect_dict_ok r cur Hr) as Hcd.
  destruct Hr as [Hd Hs Ho]. destruct cur as [|s]; split; cbn in *.
  - by apply no_None_insert.
  - done.
  - intros cur name' Hc [= <-]. rewrite Hcur in Hc. injection Hc as <-.
    cbn. rewrite lookup_insert_eq. eauto.
  - done.
  - intros s' d. destruct (decide (s = s')) as [->|Hne].
    + rewrite lookup_insert_eq. intros [= <-]. by apply no_None_insert.
    + rewrite lookup_insert_ne; [apply Hs | done].
  - intros cur name' Hc [= <-]. rewrite Hcur in Hc. injection Hc as <-.
    cbn. rewrite lookup_insert_eq. cbn. rewrite lookup_insert_eq. eauto.
Qed.

Lemma read_header_or_option_ok (lineno : nat) (line : string) (r : reading) :
  reading_ok r →
  cfg_only reading_ok (read_header_or_option false lineno line r).
Proof.
  intros Hr. unfold read_header_or_option.
  destruct (SECTCRE line) as [sectname|].
  - destruct Hr as [Hd Hs Ho].
    repeat case_bool_decide; cbn; split; cbn; try done.
    intros s d. destruct (decide (sectname = s)) as [->|Hne].
    + rewrite lookup_insert_eq. intros [= <-]. intros k.
      destruct (decide ("__name__" = k)) as [<-|Hk].
      * by rewrite lookup_singleton_eq.
      * by rewrite lookup_singleton_ne.
    + rewrite lookup_insert_ne; [apply Hs | done].
  - destruct (cursect r) as [cur|] eqn:Hcur; [|done].
    destruct (OPTCRE false line) as [[opt [v|]]|] eqn:Hopt; cbn.
    + by apply cursect_set_ok.
    + unfold OPTCRE in Hopt. destruct line as [|c ?]; [done|].
      destruct (Py.isspace c); [done|].
      destruct (find_vi (String c line)) as [[|i]|]; try done.
      destruct (value_group _); done.
    + destruct Hr as [Hd Hs Ho]. split; cbn; try done.
      intros cur0 name [= <-] Hn.
      destruct (Ho cur name Hcur Hn) as [x Hx]. exists x.
      destruct cur; exact Hx.
Qed.

Lemma read_line_ok (lineno : nat) (line : string) (r : reading) :
  reading_ok r → cfg_only reading_ok (read_line false lineno line r).
Proof.
  intros Hr. unfold read_line.
  destruct (is_blank_or_comment line); [done|].
  destruct (is_rem line); [done|].
  pose proof (read_header_or_option_ok lineno line r Hr) as Hrest.
  destruct (Py.starts_with_space line); [|done].
  destruct (cursect r) as [cur|] eqn:Hcur; [|done].
  destruct (optname r) as [name|] eqn:Hname; [|done].
  case_bool_decide; [done|].
  pose proof (cursect_dict_ok r cur Hr name) as Hnn.
  pose proof (ok_optname r Hr cur name Hcur Hname) as [v Hv].
  rewrite Hv in *. destruct v as [lines|]; [|done].
  cbn. by apply cursect_set_ok.
Qed.

Lemma read_lines_ok (lines : list string) (lineno : nat) (r : reading) :
  reading_ok r → cfg_only reading_ok (read_lines false lineno lines r).
Proof.
  revert lineno r. induction lines as [|line lines IH]; intros lineno r Hr.
  - done.
  - cbn. eapply cfg_only_bind; [by apply read_line_ok|]. intros r' Hr'.
    by apply IH.
Qed.

Lemma SafeConfigParser_ok : parser_ok SafeConfigParser.
Proof.
  split; [done | apply no_None_empty | ].
  intros s d Hsd.
  change (_sections SafeConfigParser)
    with (∅ : gmap string (gmap string (option string))) in Hsd.
  by rewrite lookup_empty in Hsd.
Qed.

Lemma _read_ok (self : RawConfigParser) (content : string) :
  parser_ok self → cfg_only parser_ok (_read self content).
Proof.
  intros [Hflag Hd Hs]. unfold _read. rewrite Hflag.
  eapply cfg_only_bind.
  - apply read_lines_ok. split; cbn.
    + by apply no_None_fmap.
    + intros s d. rewrite lookup_fmap.
      destruct (_sections self !! s) as [d'|] eqn:Hsd; [|done].
      intros [= <-]. apply no_None_fmap. eauto.
    + done.
  - intros r [Hrd Hrs _]. destruct (errors r); [|done].
    split; cbn; [done | by apply no_None_fmap |].
    intros s d. rewrite lookup_fmap.
    destruct (rd_sections r !! s) as [d'|] eqn:Hsd; [|done].
    intros [= <-]. apply no_None_fmap. eauto.
Qed.

Lemma interpolate_loop_ok (map : string → option (option string))
    (opt section : string) (deeper : string → outcome string)
    (fuel : nat) (rest : string) :
  (∀ k, map k ≠ Some None) →
  (∀ v, cfg_only (λ _, True) (deeper v)) →
  cfg_only (λ _, True) (interpolate_loop map opt section deeper fuel rest).
Proof.
  intros Hmap Hdeeper. revert rest.
  induction fuel as [|fuel IH]; intros rest; destruct rest as [|c rest]; try done.
  cbn [interpolate_loop].
  destruct (Py.find "%" (String c rest)) as [p|]; [|done].
  eapply (cfg_only_bind (λ _, True)); [|intros; exact I].
  destruct (String.get 1 _) as [d|]; [|done].
  destruct (Ascii.eqb d "%").
  { eapply (cfg_only_bind (λ _, True)); [apply IH | intros; exact I]. }
  destruct (Ascii.eqb d "("); [|done].
  destruct (_interpvar_re _) as [[name rest2]|]; [|done].
  destruct (map (optionxform name)) as [[v|]|] eqn:Hv; [| by apply Hmap in Hv | done].
  eapply (cfg_only_bind (λ _, True)).
  { destruct (Py.contains "%" v); [apply Hdeeper | done]. }
  intros x _. eapply (cfg_only_bind (λ _, True)); [apply IH | intros; exact I].
Qed.

Lemma _interpolate_some_ok (map : string → option (option string))
    (opt section : string) (left : nat) (rest : string) :
  (∀ k, map k ≠ Some None) →
  cfg_only (λ _, True) (_interpolate_some map opt section left rest).
Proof.
  intros Hmap. revert rest. induction left as [|left IH]; intros rest; [done|].
  cbn. by apply interpolate_loop_ok.
Qed.

Lemma get_ok (c : RawConfigParser) (section opt : string) :
  parser_ok c → cfg_only (λ v, v ≠ None) (get c section opt).
Proof.
  intros [_ Hd Hs]. unfold get.
  eapply (cfg_only_bind (λ d, no_None d)).
  - destruct (_sections c !! section) as [d|] eqn:Hsd; cbn; [eauto|].
    case_bool_decide; [done | apply no_None_empty].
  - intros d Hdd. cbv zeta.
    assert (∀ k, chain_lookup d (_defaults c) k ≠ Some None) as Hchain.
    { intros k. unfold chain_lookup.
      destruct (d !! k) as [v|] eqn:Hk; [|apply Hd].
      intros [= ->]. by apply Hdd in Hk. }
    destruct (chain_lookup d (_defaults c) (optionxform opt)) as [[v|]|] eqn:Hv;
      [| by apply Hchain in Hv | done].
    eapply (cfg_only_bind (λ _, True)); [by apply _interpolate_some_ok | done].
Qed.

Lemma config_of_ok (n : node) : cfg_only parser_ok (config_of n).
Proof.
  destruct n as [content|]; cbn.
  - apply _read_ok, SafeConfigParser_ok.
  - apply SafeConfigParser_ok.
Qed.

Lemma get_no_section (c : RawConfigParser) (section opt : string) :
  section ≠ DEFAULTSECT →
  has_section c section = false →
  get c section opt = Raise (ConfigError (NoSectionError section)).
Proof.
  intros Hdef Hsec. unfold has_section in Hsec.
  apply bool_decide_eq_false in Hsec. unfold get.
  destruct (_sections c !! section) as [d|]; [destruct Hsec; eauto|].
  by rewrite bool_decide_eq_true_2.
Qed.

Lemma get_no_option (c : RawConfigParser) (section opt : string) :
  section ≠ DEFAULTSECT → section ≠ EmptyString →
  has_section c section = true →
  has_option c section opt = false →
  get c section opt
  = Raise (ConfigError (NoOptionError (optionxform opt) section)).
Proof.
  intros Hdef Hempty Hsec. unfold has_section in Hsec.
  apply bool_decide_eq_true in Hsec as [d Hd].
  unfold has_option, get. rewrite Hd.
  rewrite (bool_decide_eq_false_2 (section = EmptyString)) by done.
  rewrite (bool_decide_eq_false_2 (section = DEFAULTSECT)) by done.
  cbn [orb]. intros Hopt.
  apply orb_false_iff in Hopt as [Hopt Hopt'].
  apply bool_decide_eq_false in Hopt, Hopt'.
  cbn. unfold chain_lookup.
  destruct (d !! optionxform opt) as [v|]; [destruct Hopt; eauto|].
  destruct (_defaults c !! optionxform opt) as [v|]; [destruct Hopt'; eauto|].
  reflexivity.
Qed.

Lemma get_lacking (c : RawConfigParser) (section opt : string) :
  section ≠ DEFAULTSECT → section ≠ EmptyString →
  has_section c section = false ∨ has_option c section opt = false →
  get c section opt = Raise (ConfigError (NoSectionError section))
  ∨ get c section opt
    = Raise (ConfigError (NoOptionError (optionxform opt) section)).
Proof.
  intros Hdef Hempty Hlack.
  destruct (has_section c section) eqn:Hsec.
  - destruct Hlack as [?|Hopt]; [done|]. right. by apply get_no_option.
  - left. by apply get_no_section.
Qed.

(** ** The loop of the interpolation has fuel enough *)

Lemma string_length_drop (n : nat) (s : string) :
  String.length (Py.drop n s) = (String.length s - n)%nat.
Proof.
  revert s. induction n as [|n IH]; intros [|c s]; cbn; done.
Qed.

Lemma get_Some_length (n : nat) (s : string) (c : ascii) :
  String.get n s = Some c → (n < String.length s)%nat.
Proof.
  revert n. induction s as [|d s IH]; intros [|n]; cbn; try done; [lia|].
  intros Hn. apply IH in Hn. lia.
Qed.

Lemma _interpvar_re_shorter (rest name rest2 : string) :
  _interpvar_re rest = Some (name, rest2) →
  (String.length rest2 + 2 < String.length rest)%nat.
Proof.
  unfold _interpvar_re. destruct rest as [|c [|d r]]; try done.
  destruct (Ascii.eqb c "%" && Ascii.eqb d "("); [|done].
  destruct (Py.find ")" r) as [[|n]|]; try done.
  destruct (Py.drop (S (S n)) r) as [|s tail] eqn:Hdrop; [done|].
  destruct (Ascii.eqb s "s"); [|done]. intros [= _ <-].
  pose proof (string_length_drop (S (S n)) r) as Hlen. rewrite Hdrop in Hlen.
  cbn in *. lia.
Qed.

(** The loop of [_interpolate_some] does not depend on the fuel once
    there is as much of it as [rest] is long. *)
Lemma interpolate_loop_fuel (map : string → option (option string))
    (opt section : string) (deeper : string → outcome string)
    (fuel1 fuel2 : nat) (rest : string) :
  (String.length rest ≤ fuel1)%nat → (String.length rest ≤ fuel2)%nat →
  interpolate_loop map opt section deeper fuel1 rest
  = interpolate_loop map opt section deeper fuel2 rest.
Proof.
  revert fuel2 rest. induction fuel1 as [|fuel1 IH]; intros fuel2 rest H1 H2.
  - destruct rest; [|cbn in H1; lia]. by destruct fuel2.
  - destruct rest as [|c rest]; [by destruct fuel2|].
    destruct fuel2 as [|fuel2]; [cbn in H2; lia|].
    cbn [interpolate_loop].
    destruct (Py.find "%" (String c rest)) as [p|]; [|done].
    pose proof (string_length_drop p (String c rest)) as Hp.
    destruct (String.get 1 (Py.drop p (String c rest))) as [d|] eqn:Hget; [|done].
    apply get_Some_length in Hget.
    destruct (Ascii.eqb d "%").
    { rewrite (IH fuel2); [done| |];
        rewrite string_length_drop; cbn in *; lia. }
    destruct (Ascii.eqb d "("); [|done].
    destruct (_interpvar_re _) as [[name rest2]|] eqn:Hre; [|done].
    apply _interpvar_re_shorter in Hre.
    destruct (map (optionxform name)) as [[v|]|]; try done.
    rewrite (IH fuel2 rest2); [done| |]; cbn in *; lia.
Qed.

(** ** The command line *)

Lemma old_cmd_eq (pem_file_path machine_address : string) :
  old_cmd pem_file_path machine_address
  = Ret ("ssh -i " +:+ pem_file_path +:+ " ec2-user@" +:+ machine_address).
Proof.
  unfold old_cmd, format. cbn.
  by rewrite (string_app_nil_r machine_address).
Qed.

Lemma new_cmd_eq (pem_file_path machine_address : string) :
  new_cmd pem_file_path machine_address
  = Ret ("ssh -i " +:+ pem_file_path +:+ " ec2-user@" +:+ machine_address
         +:+ " -t 'sudo yum update -y'").
Proof.
  unfold new_cmd. rewrite old_cmd_eq. unfold format. cbn.
  by rewrite !string_app_assoc.
Qed.

(** ** The three functions, run *)

Lemma read_run (path : string) (e : env) (st : state) :
  ConfigParser.read ConfigParser.SafeConfigParser path e st
  = (match fs e !! path with
     | Some n => config_of n
     | None =>
         if Py.contains Py.NUL path then Raise TypeError
         else Ret ConfigParser.SafeConfigParser
     end, state_after st [EvOpen path]).
Proof.
  unfold ConfigParser.read. run_M.
  destruct (fs e !! path) as [[content|]|]; [reflexivity..|].
  destruct (Py.contains Py.NUL path); reflexivity.
Qed.

Lemma get_private_key_and_hostfile_missing (e : env) (st : state) :
  fs e !! ANSIBLE_CFG = None →
  ∃ text,
    format config_not_found_text [BYPASS_PHRASE] [] = Ret text ∧
    get_private_key_and_hostfile e st
    = (SystemExit 1, state_after st [EvExists ANSIBLE_CFG; EvPrint text]).
Proof.
  intros Hfs. eexists. split.
  - unfold format. cbn. reflexivity.
  - unfold get_private_key_and_hostfile. run_M. rewrite Hfs. cbn.
    unfold state_after. rewrite <- !(assoc_L (++)). reflexivity.
Qed.

Lemma get_private_key_and_hostfile_found (e : env) (st : state) (n : node) :
  fs e !! ANSIBLE_CFG = Some n →
  get_private_key_and_hostfile e st
  = let st1 := state_after st [EvExists ANSIBLE_CFG; EvOpen ANSIBLE_CFG] in
    match config_of n with
    | Ret config =>
        match ConfigParser.get config "defaults" "hostfile" with
        | Ret (Some hostfile) =>
            match ConfigParser.get config "defaults" "private_key_file" with
            | Ret private_key => (Ret (private_key, hostfile), st1)
            | SystemExit c => (SystemExit c, st1)
            | Raise x => (Raise x, st1)
            end
        | Ret None =>
            (SystemExit 2,
             state_after st
               [EvExists ANSIBLE_CFG; EvOpen ANSIBLE_CFG;
                EvPrint "We can't read the hostfile from ansible.cfg"])
        | SystemExit c => (SystemExit c, st1)
        | Raise x => (Raise x, st1)
        end
    | SystemExit c => (SystemExit c, st1)
    | Raise x => (Raise x, st1)
    end.
Proof.
  intros Hfs. unfold get_private_key_and_hostfile, ANSIBLE_CFG in *.
  rewrite bind_run, os_path_exists_run, Hfs.
  rewrite !bind_run. cbn [negb]. unfold mret at 1, M_ret at 1.
  rewrite bind_run, read_run, Hfs. cbv zeta. unfold state_after. cbn [stdin trace].
  rewrite <- !(assoc_L (++)). cbn [app].
  destruct (config_of n) as [config|c|x]; try reflexivity.
  run_M.
  destruct (ConfigParser.get config "defaults" "hostfile") as [[hostfile|]|c|x];
    try reflexivity.
  cbn. rewrite <- !(assoc_L (++)). reflexivity.
Qed.

Lemma get_host_missing (hostfile : string) (e : env) (st : state) :
  fs e !! hostfile = None →
  Py.contains Py.NUL hostfile = false →
  ∃ text,
    format hostfile_not_found_text [hostfile; BYPASS_PHRASE] [] = Ret text ∧
    get_host hostfile e st
    = (SystemExit 3, state_after st [EvExists hostfile; EvPrint text]).
Proof.
  intros Hfs Hnul. eexists. split.
  - unfold format. cbn. reflexivity.
  - unfold get_host. run_M. rewrite Hfs, Hnul. cbn.
    unfold state_after. rewrite <- !(assoc_L (++)). reflexivity.
Qed.

(** A path with a NUL byte stops [get_host] at [os.path.exists]. *)
Lemma get_host_NUL (hostfile : string) (e : env) (st : state) :
  fs e !! hostfile = None →
  Py.contains Py.NUL hostfile = true →
  get_host hostfile e st = (Raise TypeError, state_after st [EvExists hostfile]).
Proof.
  intros Hfs Hnul. unfold get_host. run_M. by rewrite Hfs, Hnul.
Qed.

Lemma get_host_found (hostfile : string) (e : env) (st : state) (n : node) :
  fs e !! hostfile = Some n →
  get_host hostfile e st
  = (match n with
     | File content =>
         match Py.readlines content !! 1%nat with
         | Some line => Ret (Py.strip line)
         | None => Raise IndexError
         end
     | Dir => Raise IOError
     end, state_after st [EvExists hostfile; EvOpen hostfile]).
Proof.
  intros Hfs. unfold get_host. run_M. rewrite Hfs. cbn.
  unfold state_after. rewrite <- !(assoc_L (++)).
  destruct n as [content|]; [|reflexivity].
  destruct (Py.readlines content !! 1%nat); reflexivity.
Qed.

Lemma example_02_run (k a : string) (e : env) (st : state) :
  ∃ shown announced,
    format command_line_text [update_cmd k a] [] = Ret shown ∧
    format command_to_execute_text [update_cmd k a] [] = Ret announced ∧
    example_02 k a e st
    = match stdin st with
      | line :: rest =>
          if Py.contains Py.NUL (update_cmd k a) then
            (Raise TypeError,
             State rest
               (trace st ++
                [EvPrint shown; EvInput "--> "; EvPrint announced;
                 EvCall (update_cmd k a)]))
          else
            (Ret tt,
             State rest
               (trace st ++
                [EvPrint shown; EvInput "--> "; EvPrint announced;
                 EvCall (update_cmd k a); EvPrint nl]))
      | [] =>
          (Raise EOFError,
           State [] (trace st ++ [EvPrint shown; EvInput "--> "]))
      end.
Proof.
  unfold example_02. rewrite bind_run. unfold lift at 1. rewrite new_cmd_eq.
  fold (update_cmd k a). generalize (update_cmd k a) as cmd. intros cmd.
  eexists _, _. split; [|split].
  - unfold format. cbn. reflexivity.
  - unfold format. cbn. reflexivity.
  - run_M. destruct (stdin st) as [|line rest]; cbn;
      [|destruct (Py.contains Py.NUL cmd); cbn];
      rewrite <- !(assoc_L (++)); reflexivity.
Qed.

(** The branch of [get_private_key_and_hostfile] that prints the guidance
    and calls [sys.exit(2)] is never taken. *)
Lemma get_private_key_and_hostfile_never_exits_2 (e : env) (st : state) :
  (get_private_key_and_hostfile e st).1 ≠ SystemExit 2.
Proof.
  destruct (fs e !! ANSIBLE_CFG) as [n|] eqn:Hfs.
  - rewrite (get_private_key_and_hostfile_found e st n Hfs). cbv zeta.
    pose proof (config_of_ok n) as Hn.
    destruct (config_of n) as [config|c|[]]; try done.
    pose proof (get_ok config "defaults" "hostfile" Hn) as Hh.
    destruct (get config "defaults" "hostfile") as [[hostfile|]|c|[]]; try done.
    pose proof (get_ok config "defaults" "private_key_file" Hn) as Hk.
    destruct (get config "defaults" "private_key_file") as [pk|c|[]]; done.
  - destruct (get_private_key_and_hostfile_missing e st Hfs) as (text & _ & ->).
    done.
Qed.

(** Which exception it is. *)
Lemma missing_section_raises_NoSectionError (e : env) (st : state) (n : node)
    (config : RawConfigParser) :
  fs e !! ANSIBLE_CFG = Some n →
  config_of n = Ret config →
  has_section config "defaults" = false →
  (get_private_key_and_hostfile e st).1
  = Raise (ConfigError (NoSectionError "defaults")).
Proof.
  intros Hfs Hconfig Hsec.
  rewrite (get_private_key_and_hostfile_found e st n Hfs), Hconfig. cbv zeta.
  by rewrite get_no_section.
Qed.

Lemma missing_private_key_raises_NoOptionError (e : env) (st : state)
    (n : node) (config : RawConfigParser) (hostfile : string) :
  fs e !! ANSIBLE_CFG = Some n →
  config_of n = Ret config →
  get config "defaults" "hostfile" = Ret (Some hostfile) →
  has_option config "defaults" "private_key_file" = false →
  (get_private_key_and_hostfile e st).1
  = Raise (ConfigError (NoOptionError "private_key_file" "defaults")).
Proof.
  intros Hfs Hconfig Hhost Hopt.
  rewrite (get_private_key_and_hostfile_found e st n Hfs), Hconfig. cbv zeta.
  rewrite Hhost.
  destruct (has_section config "defaults") eqn:Hsec.
  - by rewrite get_no_option.
  - rewrite get_no_section in Hhost; done.
Qed.

(** ** The claims *)

(** C1: when the host inventory file exists and has at least two lines,
    [get_host] returns the second line (index 1) with the white space
    around it removed, and nothing else of the file matters: every file
    with the same second line gives the same address. *)
Theorem get_host_returns_second_line (e : env) (st : state)
    (hostfile content : string) :
  fs e !! hostfile = Some (File content) →
  (2 ≤ length (Py.readlines content))%nat →
  ∃ line address,
    Py.readlines content !! 1%nat = Some line ∧
    (get_host hostfile e st).1 = Ret address ∧
    address = Py.strip line ∧
    trimmed line address ∧
    ∀ e' st' hostfile' content',
      fs e' !! hostfile' = Some (File content') →
      Py.readlines content' !! 1%nat = Some line →
      (get_host hostfile' e' st').1 = Ret address.
Proof.
  intros Hfs Hlen.
  destruct (Py.readlines content !! 1%nat) as [line|] eqn:Hline.
  - exists line, (Py.strip line).
    rewrite (get_host_found _ _ _ _ Hfs), Hline.
    repeat split; try done; [apply strip_spec|].
    intros e' st' hostfile' content' Hfs' Hline'.
    by rewrite (get_host_found _ _ _ _ Hfs'), Hline'.
  - apply lookup_ge_None in Hline. lia.
Qed.

Lemma get_host_returns_second_line_witness :
  ∃ line address,
    Py.readlines ("[webservers]" +:+ nl +:+ "10.0.0.5") !! 1%nat = Some line ∧
    (get_host "/tmp/hosts" sample_env (State [] [])).1 = Ret address ∧
    address = Py.strip line ∧
    trimmed line address ∧
    ∀ e' st' hostfile' content',
      fs e' !! hostfile' = Some (File content') →
      Py.readlines content' !! 1%nat = Some line →
      (get_host hostfile' e' st').1 = Ret address.
Proof.
  apply (get_host_returns_second_line sample_env (State [] []) "/tmp/hosts"
           ("[webservers]" +:+ nl +:+ "10.0.0.5")).
  - vm_compute. reflexivity.
  - vm_compute. lia.
Defined.

(** C3: the command line that [example_02] builds is
    [ssh -i {key_path} ec2-user@{address} -t 'sudo yum update -y'], a
    function of the key path and the address alone; it is the command
    handed to the shell, whatever the environment, the confirmation and
    the trace so far. *)
Theorem example_02_command (key_path address : string) :
  new_cmd key_path address
  = Ret ("ssh -i " +:+ key_path +:+ " ec2-user@" +:+ address
         +:+ " -t 'sudo yum update -y'")
  ∧ ∀ (e : env) (line : string) (rest : list string) (t : list event),
      calls (trace (example_02 key_path address e (State (line :: rest) t)).2)
      = calls t ++ ["ssh -i " +:+ key_path +:+ " ec2-user@" +:+ address
                    +:+ " -t 'sudo yum update -y'"].
Proof.
  split; [apply new_cmd_eq|]. intros e line rest t.
  destruct (example_02_run key_path address e (State (line :: rest) t))
    as (shown & announced & _ & _ & ->).
  cbn [stdin].
  destruct (Py.contains Py.NUL (update_cmd key_path address));
    cbn [trace snd]; by rewrite calls_app.
Qed.

(** C4: when [./ansible.cfg] does not exist, the script prints the
    guidance and leaves with [sys.exit(1)]; the test of existence is its
    only access to the file system, and no file is opened. *)
Theorem missing_config_exits_1 (e : env) (input : list string) :
  fs e !! ANSIBLE_CFG = None →
  ∃ text,
    format config_not_found_text [BYPASS_PHRASE] [] = Ret text ∧
    run main e input
    = (SystemExit 1, State input [EvExists ANSIBLE_CFG; EvPrint text]) ∧
    exit_status (run main e input).1 = 1 ∧
    opened (trace (run main e input).2) = [].
Proof.
  intros Hfs.
  destruct (get_private_key_and_hostfile_missing e (State input []) Hfs)
    as (text & Htext & Hrun).
  exists text. split; [done|].
  assert (run main e input
          = (SystemExit 1, State input [EvExists ANSIBLE_CFG; EvPrint text]))
    as ->; [|done].
  unfold run, main. by rewrite bind_run, Hrun.
Qed.

Lemma missing_config_exits_1_witness :
  ∃ text,
    format config_not_found_text [BYPASS_PHRASE] [] = Ret text ∧
    run main (Env ∅ (λ _, 0)) []
    = (SystemExit 1, State [] [EvExists ANSIBLE_CFG; EvPrint text]) ∧
    exit_status (run main (Env ∅ (λ _, 0)) []).1 = 1 ∧
    opened (trace (run main (Env ∅ (λ _, 0)) []).2) = [].
Proof.
  apply (missing_config_exits_1 (Env ∅ (λ _, 0)) []). vm_compute. reflexivity.
Defined.

(** C5, with the condition that it needs: when the host inventory file
    whose path was read from the configuration does not exist, and the
    path holds no NUL byte, [get_host] prints the guidance and leaves
    with [sys.exit(3)], and that is how the script ends. *)
Theorem missing_hostfile_exits_3 (e : env) (st0 st : state)
    (private_key : option string) (hostfile : string) :
  get_private_key_and_hostfile e st0 = (Ret (private_key, hostfile), st) →
  fs e !! hostfile = None →
  Py.contains Py.NUL hostfile = false →
  ∃ text,
    format hostfile_not_found_text [hostfile; BYPASS_PHRASE] [] = Ret text ∧
    get_host hostfile e st
    = (SystemExit 3, state_after st [EvExists hostfile; EvPrint text]) ∧
    main e st0
    = (SystemExit 3, state_after st [EvExists hostfile; EvPrint text]) ∧
    exit_status (main e st0).1 = 3.
Proof.
  intros Hcfg Hfs Hnul.
  destruct (get_host_missing hostfile e st Hfs Hnul) as (text & Htext & Hrun).
  exists text.
  assert (main e st0
          = (SystemExit 3, state_after st [EvExists hostfile; EvPrint text]))
    as Hmain.
  { unfold main. by rewrite bind_run, Hcfg, bind_run, Hrun. }
  by rewrite Hmain.
Qed.

Lemma missing_hostfile_exits_3_witness :
  ∃ text,
    format hostfile_not_found_text ["/tmp/hosts"; BYPASS_PHRASE] [] = Ret text ∧
    get_host "/tmp/hosts" env_without_hosts
      (State [] [EvExists "./ansible.cfg"; EvOpen "./ansible.cfg"])
    = (SystemExit 3,
       State [] [EvExists "./ansible.cfg"; EvOpen "./ansible.cfg";
                 EvExists "/tmp/hosts"; EvPrint text]) ∧
    main env_without_hosts (State [] [])
    = (SystemExit 3,
       State [] [EvExists "./ansible.cfg"; EvOpen "./ansible.cfg";
                 EvExists "/tmp/hosts"; EvPrint text]) ∧
    exit_status (main env_without_hosts (State [] [])).1 = 3.
Proof.
  apply (missing_hostfile_exits_3 env_without_hosts (State [] [])
           (State [] [EvExists "./ansible.cfg"; EvOpen "./ansible.cfg"])
           (Some "/tmp/key.pem") "/tmp/hosts").
  - vm_compute. reflexivity.
  - vm_compute. reflexivity.
  - vm_compute. reflexivity.
Defined.

(** Without the condition the property fails.  The configuration can
    name a path with a NUL byte; nothing exists under it, and on it
    [os.path.exists] raises [TypeError]: no guidance is printed, and the
    script ends with the traceback and status 1, not with
    [sys.exit(3)]. *)
Lemma missing_hostfile_with_NUL_raises_TypeError :
  get_private_key_and_hostfile env_NUL_path (State [] [])
  = (Ret (Some "/tmp/key.pem", NUL_path),
     State [] [EvExists "./ansible.cfg"; EvOpen "./ansible.cfg"])
  ∧ fs env_NUL_path !! NUL_path = None
  ∧ get_host NUL_path env_NUL_path
      (State [] [EvExists "./ansible.cfg"; EvOpen "./ansible.cfg"])
    = (Raise TypeError,
       State [] [EvExists "./ansible.cfg"; EvOpen "./ansible.cfg";
                 EvExists NUL_path])
  ∧ main env_NUL_path (State [] [])
    = (Raise TypeError,
       State [] [EvExists "./ansible.cfg"; EvOpen "./ansible.cfg";
                 EvExists NUL_path])
  ∧ (main env_NUL_path (State [] [])).1 ≠ SystemExit 3
  ∧ exit_status (main env_NUL_path (State [] [])).1 ≠ 3.
Proof.
  repeat split; try (vm_compute; reflexivity); vm_compute; discriminate.
Qed.

(** C6, with the exit status as it is: on a host inventory file that
    exists, the index access of [get_host] raises [IndexError] exactly
    when the file has fewer than two lines.  The failure is that
    uncaught exception and no [sys.exit] of any code; the interpreter
    ends with status 1 after it, as after any traceback.  With two lines
    or more the access is in bounds and [get_host] returns. *)
Theorem short_hostfile_raises_IndexError (e : env) (st : state)
    (hostfile content : string) :
  fs e !! hostfile = Some (File content) →
  ((get_host hostfile e st).1 = Raise IndexError
   ↔ (length (Py.readlines content) < 2)%nat)
  ∧ (∀ code, (get_host hostfile e st).1 ≠ SystemExit code)
  ∧ (((length (Py.readlines content) < 2)%nat
      ∧ (get_host hostfile e st).1 = Raise IndexError
      ∧ exit_status (get_host hostfile e st).1 = 1)
     ∨ ((2 ≤ length (Py.readlines content))%nat
        ∧ ∃ address, (get_host hostfile e st).1 = Ret address)).
Proof.
  intros Hfs. rewrite (get_host_found _ _ _ _ Hfs). cbn [fst].
  destruct (Py.readlines content !! 1%nat) as [line|] eqn:Hline.
  - apply lookup_lt_Some in Hline. repeat split; try done; [lia|].
    right. split; [lia | eauto].
  - apply lookup_ge_None in Hline. repeat split; try done; [lia|].
    left. repeat split; [lia | done..].
Qed.

Lemma short_hostfile_raises_IndexError_witness :
  ((get_host "/tmp/hosts" env_one_line (State [] [])).1 = Raise IndexError
   ↔ (length (Py.readlines ("10.0.0.5" +:+ nl)) < 2)%nat)
  ∧ (∀ code, (get_host "/tmp/hosts" env_one_line (State [] [])).1
             ≠ SystemExit code)
  ∧ (((length (Py.readlines ("10.0.0.5" +:+ nl)) < 2)%nat
      ∧ (get_host "/tmp/hosts" env_one_line (State [] [])).1 = Raise IndexError
      ∧ exit_status (get_host "/tmp/hosts" env_one_line (State [] [])).1 = 1)
     ∨ ((2 ≤ length (Py.readlines ("10.0.0.5" +:+ nl)))%nat
        ∧ ∃ address,
            (get_host "/tmp/hosts" env_one_line (State [] [])).1 = Ret address)).
Proof.
  apply (short_hostfile_raises_IndexError env_one_line (State [] [])
           "/tmp/hosts" ("10.0.0.5" +:+ nl)).
  vm_compute. reflexivity.
Defined.

(** The exit status is not free of the codes 1, 2 and 3: with one line
    in the host file the script ends with the traceback of [IndexError]
    and with status 1, the number that [sys.exit(1)] gives for a missing
    configuration. *)
Lemma short_hostfile_exit_status_is_1 :
  fs env_short_hosts !! "/tmp/hosts" = Some (File ("10.0.0.5" +:+ nl))
  ∧ (length (Py.readlines ("10.0.0.5" +:+ nl)) < 2)%nat
  ∧ (run main env_short_hosts [EmptyString]).1 = Raise IndexError
  ∧ exit_status (run main env_short_hosts [EmptyString]).1 = 1
  ∧ ¬ (exit_status (run main env_short_hosts [EmptyString]).1 ≠ 1
       ∧ exit_status (run main env_short_hosts [EmptyString]).1 ≠ 2
       ∧ exit_status (run main env_short_hosts [EmptyString]).1 ≠ 3).
Proof.
  split; [vm_compute; reflexivity|]. split; [vm_compute; lia|].
  split; [vm_compute; reflexivity|]. split; [vm_compute; reflexivity|].
  intros [H _]. apply H. vm_compute. reflexivity.
Qed.









(** C9: the scenario of the specification.  With [hostfile=/tmp/hosts]
    and [private_key_file=/tmp/key.pem] under [defaults] in
    [./ansible.cfg], and the two lines [[webservers]] and [10.0.0.5] in
    [/tmp/hosts], the address is [10.0.0.5] and the command is
    [ssh -i /tmp/key.pem ec2-user@10.0.0.5 -t 'sudo yum update -y']. *)
Theorem scenario_key_and_host (e : env) (st : state) :
  fs e !! "./ansible.cfg"
  = Some (File ("[defaults]" +:+ nl +:+ "hostfile=/tmp/hosts" +:+ nl
                +:+ "private_key_file=/tmp/key.pem")) →
  fs e !! "/tmp/hosts" = Some (File ("[webservers]" +:+ nl +:+ "10.0.0.5")) →
  ∃ st1 st2,
    get_private_key_and_hostfile e st
    = (Ret (Some "/tmp/key.pem", "/tmp/hosts"), st1) ∧
    get_host "/tmp/hosts" e st1 = (Ret "10.0.0.5", st2) ∧
    new_cmd "/tmp/key.pem" "10.0.0.5"
    = Ret "ssh -i /tmp/key.pem ec2-user@10.0.0.5 -t 'sudo yum update -y'" ∧
    ∀ line rest,
      calls (trace (main e (State (line :: rest) (trace st))).2)
      = calls (trace st)
        ++ ["ssh -i /tmp/key.pem ec2-user@10.0.0.5 -t 'sudo yum update -y'"].
Proof.
  intros Hcfg Hhosts.
  assert (∀ st,
    get_private_key_and_hostfile e st
    = (Ret (Some "/tmp/key.pem", "/tmp/hosts"),
       state_after st [EvExists ANSIBLE_CFG; EvOpen ANSIBLE_CFG])) as Hkeys.
  { intros st'. rewrite (get_private_key_and_hostfile_found e st' _ Hcfg).
    vm_compute. reflexivity. }
  assert (∀ st,
    get_host "/tmp/hosts" e st
    = (Ret "10.0.0.5",
       state_after st [EvExists "/tmp/hosts"; EvOpen "/tmp/hosts"])) as Hhost.
  { intros st'. rewrite (get_host_found "/tmp/hosts" e st' _ Hhosts).
    vm_compute. reflexivity. }
  eexists _, _. split; [apply Hkeys|]. split; [apply Hhost|].
  split; [by vm_compute|].
  intros line rest. unfold main.
  rewrite bind_run, Hkeys, bind_run, Hhost.
  destruct (example_02_run (str (Some "/tmp/key.pem")) "10.0.0.5" e
              (state_after
                 (state_after (State (line :: rest) (trace st))
                    [EvExists ANSIBLE_CFG; EvOpen ANSIBLE_CFG])
                 [EvExists "/tmp/hosts"; EvOpen "/tmp/hosts"]))
    as (shown & announced & _ & _ & ->).
  cbn [state_after stdin].
  replace (Py.contains Py.NUL (update_cmd (str (Some "/tmp/key.pem")) "10.0.0.5"))
    with false by (by vm_compute).
  unfold state_after. cbn [stdin trace snd].
  rewrite <- !(assoc_L (++)), calls_app. f_equal.
Qed.

Lemma scenario_key_and_host_witness :
  ∃ st1 st2,
    get_private_key_and_hostfile sample_env (State [EmptyString] [])
    = (Ret (Some "/tmp/key.pem", "/tmp/hosts"), st1) ∧
    get_host "/tmp/hosts" sample_env st1 = (Ret "10.0.0.5", st2) ∧
    new_cmd "/tmp/key.pem" "10.0.0.5"
    = Ret "ssh -i /tmp/key.pem ec2-user@10.0.0.5 -t 'sudo yum update -y'" ∧
    ∀ line rest,
      calls (trace (main sample_env
                      (State (line :: rest)
                         (trace (State [EmptyString] [])))).2)
      = calls (trace (State [EmptyString] []))
        ++ ["ssh -i /tmp/key.pem ec2-user@10.0.0.5 -t 'sudo yum update -y'"].
Proof.
  apply (scenario_key_and_host sample_env (State [EmptyString] []));
    vm_compute; reflexivity.
Defined.

(** C10, with [[DEFAULT]] taken into account: when [./ansible.cfg]
    exists and is read without error, but has no [defaults] section, or
    has no [private_key_file] option for it, neither in the section nor
    in [[DEFAULT]] ([has_option]), [get_private_key_and_hostfile] ends
    with an uncaught exception of [ConfigParser], and not with
    [sys.exit] of any code. *)
Theorem missing_section_or_key_raises (e : env) (st : state) (n : node)
    (config : RawConfigParser) :
  fs e !! ANSIBLE_CFG = Some n →
  config_of n = Ret config →
  has_section config "defaults" = false
  ∨ has_option config "defaults" "private_key_file" = false →
  ∃ err,
    (get_private_key_and_hostfile e st).1 = Raise (ConfigError err) ∧
    ∀ code, (get_private_key_and_hostfile e st).1 ≠ SystemExit code.
Proof.
  intros Hfs Hconfig Hlack.
  rewrite (get_private_key_and_hostfile_found e st n Hfs). cbv zeta.
  pose proof (config_of_ok n) as Hok. rewrite Hconfig in *. cbn in Hok.
  pose proof (get_ok config "defaults" "hostfile" Hok) as Hh.
  destruct (get config "defaults" "hostfile") as [[hostfile|]|c|[]]; try done;
    [|eauto].
  destruct (get_lacking config "defaults" "private_key_file") as [-> | ->];
    try done; eauto.
Qed.

Lemma missing_section_or_key_raises_witness :
  (∃ err,
     (get_private_key_and_hostfile env_no_section (State [] [])).1
     = Raise (ConfigError err) ∧
     ∀ code, (get_private_key_and_hostfile env_no_section (State [] [])).1
             ≠ SystemExit code)
  ∧ (∃ err,
       (get_private_key_and_hostfile env_no_private_key (State [] [])).1
       = Raise (ConfigError err) ∧
       ∀ code, (get_private_key_and_hostfile env_no_private_key (State [] [])).1
               ≠ SystemExit code).
Proof.
  split.
  - eapply (missing_section_or_key_raises env_no_section (State [] [])).
    + vm_compute. reflexivity.
    + vm_compute. reflexivity.
    + left. vm_compute. reflexivity.
  - eapply (missing_section_or_key_raises env_no_private_key (State [] [])).
    + vm_compute. reflexivity.
    + vm_compute. reflexivity.
    + right. vm_compute. reflexivity.
Defined.

(** That the [defaults] section lacks the option is not enough: what
    [[DEFAULT]] holds is an option of every section.  Here the section
    is without [private_key_file], and the function returns the key
    path of [[DEFAULT]] instead of raising. *)
Lemma private_key_from_DEFAULT_returns :
  ∃ config,
    config_of (File ("[DEFAULT]" +:+ nl +:+ "private_key_file=/k" +:+ nl
                     +:+ "[defaults]" +:+ nl +:+ "hostfile=/h" +:+ nl))
    = Ret config
    ∧ fs env_default_key !! ANSIBLE_CFG
      = Some (File ("[DEFAULT]" +:+ nl +:+ "private_key_file=/k" +:+ nl
                    +:+ "[defaults]" +:+ nl +:+ "hostfile=/h" +:+ nl))
    ∧ has_section config "defaults" = true
    ∧ section_holds config "defaults" "private_key_file" = false
    ∧ run get_private_key_and_hostfile env_default_key []
      = (Ret (Some "/k", "/h"),
         State [] [EvExists "./ansible.cfg"; EvOpen "./ansible.cfg"])
    ∧ ¬ ∃ err,
          (run get_private_key_and_hostfile env_default_key []).1
          = Raise (ConfigError err).
Proof.
  eexists. split; [vm_compute; reflexivity|].
  split; [vm_compute; reflexivity|]. split; [vm_compute; reflexivity|].
  split; [vm_compute; reflexivity|]. split; [vm_compute; reflexivity|].
  intros [err Herr]. vm_compute in Herr. discriminate Herr.
Qed.

(** C2: on a configuration whose [defaults] section has no [hostfile]
    option, [config.get] raises [NoOptionError]: the script ends with that
    uncaught exception, without the guidance and without [sys.exit(2)]. *)
Theorem missing_hostfile_key_raises :
  run get_private_key_and_hostfile env_no_hostfile_key []
  = (Raise (ConfigError (NoOptionError "hostfile" "defaults")),
     State [] [EvExists "./ansible.cfg"; EvOpen "./ansible.cfg"])
  ∧ exit_status (run main env_no_hostfile_key []).1 = 1
  ∧ exit_status (run main env_no_hostfile_key []).1 ≠ 2.
Proof. vm_compute. repeat split; discriminate. Qed.

(** * Further properties *)

(** ** Every way in which the functions end *)

Lemma get_private_key_and_hostfile_cases (e : env) (st : state) :
  (fs e !! ANSIBLE_CFG = None ∧
   ∃ text,
     get_private_key_and_hostfile e st
     = (SystemExit 1, state_after st [EvExists ANSIBLE_CFG; EvPrint text]))
  ∨ (is_Some (fs e !! ANSIBLE_CFG) ∧
     ((∃ private_key hostfile,
         get_private_key_and_hostfile e st
         = (Ret (Some private_key, hostfile),
            state_after st [EvExists ANSIBLE_CFG; EvOpen ANSIBLE_CFG]))
      ∨ (∃ err,
           get_private_key_and_hostfile e st
           = (Raise (ConfigError err),
              state_after st [EvExists ANSIBLE_CFG; EvOpen ANSIBLE_CFG])))).
Proof.
  destruct (fs e !! ANSIBLE_CFG) as [n|] eqn:Hfs.
  - right. split; [eauto|].
    rewrite (get_private_key_and_hostfile_found e st n Hfs). cbv zeta.
    pose proof (config_of_ok n) as Hn.
    destruct (config_of n) as [config|c|[]]; try done; [|eauto].
    pose proof (get_ok config "defaults" "hostfile" Hn) as Hh.
    destruct (get config "defaults" "hostfile") as [[hostfile|]|c|[]];
      try done; [|eauto].
    pose proof (get_ok config "defaults" "private_key_file" Hn) as Hk.
    destruct (get config "defaults" "private_key_file") as [[pk|]|c|[]];
      try done; eauto.
  - left. split; [done|].
    destruct (get_private_key_and_hostfile_missing e st Hfs) as (text & _ & ->).
    eauto.
Qed.

Lemma get_host_cases (hostfile : string) (e : env) (st : state) :
  (∃ text,
     get_host hostfile e st
     = (SystemExit 3, state_after st [EvExists hostfile; EvPrint text]))
  ∨ get_host hostfile e st
    = (Raise TypeError, state_after st [EvExists hostfile])
  ∨ (∃ o,
       get_host hostfile e st
       = (o, state_after st [EvExists hostfile; EvOpen hostfile])
       ∧ (o = Raise IOError ∨ o = Raise IndexError ∨ ∃ address, o = Ret address)).
Proof.
  destruct (fs e !! hostfile) as [n|] eqn:Hfs.
  - right. right. rewrite (get_host_found hostfile e st n Hfs).
    eexists. split; [reflexivity|].
    destruct n as [content|]; [|eauto].
    destruct (Py.readlines content !! 1%nat); eauto.
  - destruct (Py.contains Py.NUL hostfile) eqn:Hnul.
    + right. left. by apply get_host_NUL.
    + left. destruct (get_host_missing hostfile e st Hfs Hnul)
        as (text & _ & ->). eauto.
Qed.


(** A run of the script either stops before the confirmation, with the
    input untouched, or stops at the confirmation because the input is at
    its end, or reads one line and hands one command to
    [subprocess.call], which raises or returns by the command. *)
Lemma main_run_cases (e : env) (input : list string) :
  (∃ o evs,
     run main e input = (o, State input evs) ∧ o ≠ Ret tt ∧ calls evs = []
     ∧ Forall (λ ev, ∀ prompt, ev ≠ EvInput prompt) evs)
  ∨ (∃ evs,
       input = [] ∧ run main e input = (Raise EOFError, State [] evs)
       ∧ calls evs = [])
  ∨ (∃ line rest key_path address evs,
       input = line :: rest
       ∧ calls evs = []
       ∧ run main e input
         = if Py.contains Py.NUL (update_cmd key_path address) then
             (Raise TypeError,
              State rest (evs ++ [EvCall (update_cmd key_path address)]))
           else
             (Ret tt,
              State rest
                (evs ++ [EvCall (update_cmd key_path address); EvPrint nl]))).
Proof.
  unfold run, main. rewrite bind_run.
  destruct (get_private_key_and_hostfile_cases e (State input []))
    as [[_ [text ->]] | [_ [(pk & hostfile & ->) | [err ->]]]].
  - left. eexists _, _. split; [reflexivity|]. repeat split; try done.
    repeat constructor; done.
  - rewrite bind_run.
    destruct (get_host_cases hostfile e
                (state_after (State input [])
                   [EvExists ANSIBLE_CFG; EvOpen ANSIBLE_CFG]))
      as [[text ->] | [-> | (o & -> & Ho)]].
    + left. eexists _, _. split; [reflexivity|]. repeat split; try done.
      repeat constructor; done.
    + left. eexists _, _. split; [reflexivity|]. repeat split; try done.
      repeat constructor; done.
    + destruct Ho as [-> | [-> | [address ->]]].
      * left. eexists _, _. split; [reflexivity|]. repeat split; try done.
        repeat constructor; done.
      * left. eexists _, _. split; [reflexivity|]. repeat split; try done.
        repeat constructor; done.
      * destruct (example_02_run (str (Some pk)) address e
                    (state_after
                       (state_after (State input [])
                          [EvExists ANSIBLE_CFG; EvOpen ANSIBLE_CFG])
                       [EvExists hostfile; EvOpen hostfile]))
          as (shown & announced & _ & _ & ->).
        cbn [state_after stdin trace]. destruct input as [|line rest].
        -- right. left. eexists. repeat split; done.
        -- right. right. exists line, rest, pk, address.
           exists [EvExists ANSIBLE_CFG; EvOpen ANSIBLE_CFG; EvExists hostfile;
                   EvOpen hostfile; EvPrint shown; EvInput "--> ";
                   EvPrint announced].
           split; [done|]. split; [done|]. cbn [str].
           destruct (Py.contains Py.NUL (update_cmd pk address)); reflexivity.
  - left. eexists _, _. split; [reflexivity|]. repeat split; try done.
    repeat constructor; done.
Qed.



(** X3: without a line to read at the prompt nothing is run. *)
Theorem no_confirmation_no_command (e : env) :
  calls (trace (run main e []).2) = [] ∧ (run main e []).1 ≠ Ret tt.
Proof.
  destruct (main_run_cases e [])
    as [(o & evs & -> & Ho & Hc & _) | [(evs & _ & -> & Hc)
        | (line & rest & k & a & evs & Hin & _)]]; cbn [fst snd trace];
    try done.
Qed.

(** X4: the script reads one line of input at most: a run that hands no
    command to [subprocess.call] leaves the input as it was, and a run
    that hands one has read the first line of the input, and that line
    only. *)
Theorem main_reads_one_line_at_most (e : env) (input : list string) :
  (calls (trace (run main e input).2) = []
   ∧ stdin (run main e input).2 = input)
  ∨ (∃ line key_path address,
       calls (trace (run main e input).2) = [update_cmd key_path address]
       ∧ input = line :: stdin (run main e input).2).
Proof.
  destruct (main_run_cases e input)
    as [(o & evs & -> & Ho & Hc & _) | [(evs & -> & -> & Hc)
        | (line & rest & k & a & evs & -> & Hc & ->)]]; cbn [fst snd trace stdin].
  - by left.
  - by left.
  - right. exists line, k, a.
    destruct (Py.contains Py.NUL (update_cmd k a));
      cbn [fst snd trace stdin]; rewrite calls_app, Hc; done.
Qed.



(** ** A configuration without content *)

Lemma read_lines_ignored (nv : bool) (lines : list string) (lineno : nat)
    (r : reading) :
  Forall (λ l, is_blank_or_comment l = true) lines →
  read_lines nv lineno lines r = Ret r.
Proof.
  intros Hlines. revert lineno.
  induction Hlines as [|l lines Hl _ IH]; intros lineno; [reflexivity|].
  cbn [read_lines]. unfold read_line. rewrite Hl. apply IH.
Qed.

Lemma config_of_without_content (n : node) :
  without_content n →
  ∃ config, config_of n = Ret config ∧ has_section config "defaults" = false.
Proof.
  destruct n as [content|]; cbn [without_content config_of].
  - intros Hlines. unfold _read.
    rewrite (read_lines_ignored _ _ _ _ Hlines). cbn.
    eexists. split; [reflexivity|]. unfold has_section. cbn [_sections].
    apply bool_decide_eq_false. rewrite !lookup_fmap, lookup_empty.
    by intros [? ?].
  - intros _. eexists. split; [reflexivity|]. unfold has_section.
    apply bool_decide_eq_false. cbn. rewrite lookup_empty. by intros [? ?].
Qed.

(** X6: a configuration that exists but has no content (a directory, an
    empty file, a file of blank lines and comments) is not reported as
    missing: the script fails with [NoSectionError]. *)
Theorem config_without_content_raises (e : env) (st : state) (n : node) :
  fs e !! ANSIBLE_CFG = Some n →
  without_content n →
  get_private_key_and_hostfile e st
  = (Raise (ConfigError (NoSectionError "defaults")),
     state_after st [EvExists ANSIBLE_CFG; EvOpen ANSIBLE_CFG]).
Proof.
  intros Hfs Hn.
  destruct (config_of_without_content n Hn) as (config & Hconfig & Hsec).
  rewrite (get_private_key_and_hostfile_found e st n Hfs), Hconfig. cbv zeta.
  by rewrite get_no_section.
Qed.

Lemma config_without_content_raises_witness :
  get_private_key_and_hostfile env_cfg_dir (State [] [])
  = (Raise (ConfigError (NoSectionError "defaults")),
     state_after (State [] []) [EvExists ANSIBLE_CFG; EvOpen ANSIBLE_CFG])
  ∧ get_private_key_and_hostfile env_cfg_comments (State [] [])
    = (Raise (ConfigError (NoSectionError "defaults")),
       state_after (State [] []) [EvExists ANSIBLE_CFG; EvOpen ANSIBLE_CFG]).
Proof.
  split.
  - apply (config_without_content_raises env_cfg_dir (State [] []) Dir).
    + vm_compute. reflexivity.
    + exact I.
  - apply (config_without_content_raises env_cfg_comments (State [] [])
             (File ("# no settings yet" +:+ nl +:+ nl +:+ "; none" +:+ nl))).
    + vm_compute. reflexivity.
    + vm_compute. repeat constructor.
Defined.

(** X7: a host file path that names a directory passes the test of
    existence and fails at [open]: [IOError], without the guidance and
    without [sys.exit(3)]. *)
Theorem hostfile_directory_raises_IOError (e : env) (st0 st : state)
    (private_key : option string) (hostfile : string) :
  get_private_key_and_hostfile e st0 = (Ret (private_key, hostfile), st) →
  fs e !! hostfile = Some Dir →
  get_host hostfile e st
  = (Raise IOError, state_after st [EvExists hostfile; EvOpen hostfile])
  ∧ main e st0
    = (Raise IOError, state_after st [EvExists hostfile; EvOpen hostfile]).
Proof.
  intros Hcfg Hfs. rewrite (get_host_found hostfile e st _ Hfs).
  split; [done|]. unfold main.
  by rewrite bind_run, Hcfg, bind_run, (get_host_found hostfile e st _ Hfs).
Qed.

Lemma hostfile_directory_raises_IOError_witness :
  get_host "/tmp/hosts" env_hosts_dir
    (State [] [EvExists "./ansible.cfg"; EvOpen "./ansible.cfg"])
  = (Raise IOError,
     State [] [EvExists "./ansible.cfg"; EvOpen "./ansible.cfg";
               EvExists "/tmp/hosts"; EvOpen "/tmp/hosts"])
  ∧ main env_hosts_dir (State [] [])
    = (Raise IOError,
       State [] [EvExists "./ansible.cfg"; EvOpen "./ansible.cfg";
                 EvExists "/tmp/hosts"; EvOpen "/tmp/hosts"]).
Proof.
  apply (hostfile_directory_raises_IOError env_hosts_dir (State [] [])
           (State [] [EvExists "./ansible.cfg"; EvOpen "./ansible.cfg"])
           (Some "/tmp/key.pem") "/tmp/hosts").
  - vm_compute. reflexivity.
  - vm_compute. reflexivity.
Defined.

(** ** An address of white space *)

Lemma lstrip_all_space (s : string) :
  Py.all_space s = true → Py.lstrip s = EmptyString.
Proof.
  induction s as [|c s IH]; [done|]. cbn.
  destruct (Py.isspace c); [exact IH | done].
Qed.

Lemma strip_all_space (s : string) :
  Py.all_space s = true → Py.strip s = EmptyString.
Proof. intros Hs. unfold Py.strip. by rewrite lstrip_all_space. Qed.

(** X8: the address is not validated: a second line of white space only
    gives the empty address, which goes into the command as it is. *)
Theorem blank_second_line_gives_empty_address (e : env) (st : state)
    (hostfile content second key_path : string) :
  fs e !! hostfile = Some (File content) →
  Py.readlines content !! 1%nat = Some second →
  Py.all_space second = true →
  get_host hostfile e st
  = (Ret EmptyString, state_after st [EvExists hostfile; EvOpen hostfile])
  ∧ new_cmd key_path EmptyString
    = Ret ("ssh -i " +:+ key_path +:+ " ec2-user@ -t 'sudo yum update -y'").
Proof.
  intros Hfs Hsecond Hspace.
  rewrite (get_host_found hostfile e st _ Hfs), Hsecond.
  rewrite (strip_all_space second Hspace). split; [done|].
  by rewrite new_cmd_eq.
Qed.

Lemma blank_second_line_gives_empty_address_witness :
  get_host "/tmp/hosts" env_blank_second (State [] [])
  = (Ret EmptyString,
     state_after (State [] []) [EvExists "/tmp/hosts"; EvOpen "/tmp/hosts"])
  ∧ new_cmd "/tmp/key.pem" EmptyString
    = Ret ("ssh -i " +:+ "/tmp/key.pem" +:+ " ec2-user@ -t 'sudo yum update -y'").
Proof.
  apply (blank_second_line_gives_empty_address env_blank_second (State [] [])
           "/tmp/hosts" ("[webservers]" +:+ nl +:+ "  " +:+ nl)
           ("  " +:+ nl) "/tmp/key.pem").
  - vm_compute. reflexivity.
  - vm_compute. reflexivity.
  - vm_compute. reflexivity.
Defined.

(** ** The address holds no newline *)

Lemma string_length_app (s t : string) :
  String.length (s +:+ t) = (String.length s + String.length t)%nat.
Proof.
  induction s as [|c s IH]; [reflexivity|].
  rewrite string_app_cons. cbn. by rewrite IH.
Qed.

Lemma get_app_r (s t : string) (j : nat) :
  String.get (String.length s + j) (s +:+ t) = String.get j t.
Proof. induction s as [|c s IH]; [reflexivity|]. by rewrite string_app_cons. Qed.

Lemma get_app_l (s t : string) (j : nat) :
  (j < String.length s)%nat → String.get j (s +:+ t) = String.get j s.
Proof.
  revert j. induction s as [|c s IH]; intros j Hj; [cbn in Hj; lia|].
  rewrite string_app_cons. destruct j as [|j]; [reflexivity|].
  cbn in *. apply IH. lia.
Qed.

Lemma contains_get (c : ascii) (s : string) :
  Py.contains c s = true → ∃ j, String.get j s = Some c.
Proof.
  induction s as [|d s IH]; [done|]. cbn [Py.contains].
  destruct (Ascii.eqb c d) eqn:Hcd.
  - apply Ascii.eqb_eq in Hcd as ->. by exists 0%nat.
  - intros [j Hj]%IH. by exists (S j).
Qed.

Lemma get_last (s : string) (j : nat) (c : ascii) :
  String.get j s = Some c → S j = String.length s → Py.last s = Some c.
Proof.
  revert j. induction s as [|d s IH]; intros j; [done|].
  destruct j as [|j]; cbn [String.get String.length].
  - intros [= ->] Hlen. by destruct s.
  - intros Hj Hlen. cbn [Py.last]. destruct s as [|d' s']; [done|].
    apply (IH j); [done | lia].
Qed.

(** X9: the address that [get_host] returns holds no newline. *)
Theorem address_has_no_newline (e : env) (st : state)
    (hostfile content address : string) :
  fs e !! hostfile = Some (File content) →
  (get_host hostfile e st).1 = Ret address →
  Py.contains Py.newline address = false.
Proof.
  intros Hfs. rewrite (get_host_found hostfile e st _ Hfs). cbn [fst].
  destruct (Py.readlines content !! 1%nat) as [line|] eqn:Hline; [|done].
  intros [= <-].
  pose proof (readlines_one_line content) as Hlines.
  rewrite Forall_lookup in Hlines. destruct (Hlines _ _ Hline) as [_ Hnl].
  pose proof (strip_spec line) as Htrim.
  remember (Py.strip line) as address eqn:Haddress. clear Haddress.
  destruct Htrim as (l & r & Heq & _ & _ & _ & Hend).
  destruct (Py.contains Py.newline address) eqn:Hc; [|done].
  apply contains_get in Hc as [j Hj].
  pose proof (get_Some_length _ _ _ Hj) as Hjlen.
  assert (String.get (String.length l + j) line = Some Py.newline) as Hget.
  { by rewrite Heq, get_app_r, get_app_l. }
  apply Hnl in Hget. rewrite Heq, !string_length_app in Hget.
  assert (S j = String.length address) as Hlast by lia.
  unfold Py.ends_with_space in Hend.
  by rewrite (get_last _ _ _ Hj Hlast) in Hend.
Qed.

Lemma address_has_no_newline_witness :
  Py.contains Py.newline "10.0.0.5" = false.
Proof.
  apply (address_has_no_newline sample_env (State [] []) "/tmp/hosts"
           ("[webservers]" +:+ nl +:+ "10.0.0.5") "10.0.0.5").
  - vm_compute. reflexivity.
  - vm_compute. reflexivity.
Defined.

(** ** Files that are too short *)

Lemma readlines_nil (s : string) : Py.readlines s = [] → s = EmptyString.
Proof.
  destruct s as [|c s]; [done|]. cbn [Py.readlines].
  destruct (Ascii.eqb c Py.newline); [done|].
  by destruct (Py.readlines s).
Qed.

Lemma readlines_short (s : string) :
  (length (Py.readlines s) < 2)%nat
  ↔ ∀ i, String.get i s = Some Py.newline → S i = String.length s.
Proof.
  induction s as [|c s IH].
  { split; [by intros _ [|i] | cbn; lia]. }
  cbn [Py.readlines].
  destruct (Ascii.eqb c Py.newline) eqn:Hc.
  - apply Ascii.eqb_eq in Hc as ->. cbn [length]. split.
    + intros Hlen. destruct (Py.readlines s) eqn:Hs; [|cbn in Hlen; lia].
      apply readlines_nil in Hs as ->. intros [|i]; cbn; [done|].
      by destruct i.
    + intros Hnl. specialize (Hnl 0%nat eq_refl). cbn in Hnl.
      destruct s; [cbn; lia | cbn in Hnl; lia].
  - assert (length (match Py.readlines s with
                    | [] => [String c EmptyString]
                    | l :: ls => String c l :: ls
                    end) < 2
            ↔ length (Py.readlines s) < 2)%nat as ->.
    { destruct (Py.readlines s); cbn; lia. }
    rewrite IH. split.
    + intros Hnl [|i]; cbn.
      * intros [= ->]. by rewrite Ascii.eqb_refl in Hc.
      * intros Hi. by rewrite (Hnl i Hi).
    + intros Hnl i Hi. specialize (Hnl (S i) Hi). cbn in Hnl. lia.
Qed.

(** X10: [get_host] fails at the index exactly on the files without a
    newline before their last byte: the empty file and the files of one
    line, with or without its terminator. *)
Theorem IndexError_iff_one_line_at_most (e : env) (st : state)
    (hostfile content : string) :
  fs e !! hostfile = Some (File content) →
  ((get_host hostfile e st).1 = Raise IndexError
   ↔ ∀ i, String.get i content = Some Py.newline
          → S i = String.length content).
Proof.
  intros Hfs. rewrite (get_host_found hostfile e st _ Hfs). cbn [fst].
  rewrite <- readlines_short.
  destruct (Py.readlines content !! 1%nat) as [line|] eqn:Hline.
  - apply lookup_lt_Some in Hline. split; [done | lia].
  - apply lookup_ge_None in Hline. split; [lia | done].
Qed.

Lemma IndexError_iff_one_line_at_most_witness :
  (get_host "/tmp/hosts" env_one_line (State [] [])).1 = Raise IndexError
  ↔ ∀ i, String.get i ("10.0.0.5" +:+ nl) = Some Py.newline
         → S i = String.length ("10.0.0.5" +:+ nl).
Proof.
  apply (IndexError_iff_one_line_at_most env_one_line (State [] [])
           "/tmp/hosts" ("10.0.0.5" +:+ nl)).
  vm_compute. reflexivity.
Defined.

(** ** The files that the script opens *)

(** X11: the script opens the configuration and then the host file that
    the configuration names, and no other file. *)
Theorem main_opens_two_files_at_most (e : env) (input : list string) :
  opened (trace (run main e input).2) = []
  ∨ opened (trace (run main e input).2) = [ANSIBLE_CFG]
  ∨ ∃ private_key hostfile st,
      get_private_key_and_hostfile e (State input [])
      = (Ret (private_key, hostfile), st)
      ∧ opened (trace (run main e input).2) = [ANSIBLE_CFG; hostfile].
Proof.
  unfold run, main. rewrite bind_run.
  destruct (get_private_key_and_hostfile_cases e (State input []))
    as [[_ [text ->]] | [_ [(pk & hostfile & Hrun) | [err ->]]]];
    [by left | | by right; left].
  rewrite Hrun, bind_run.
  destruct (get_host_cases hostfile e
              (state_after (State input [])
                 [EvExists ANSIBLE_CFG; EvOpen ANSIBLE_CFG]))
    as [[text ->] | [-> | (o & -> & [-> | [-> | [address ->]]])]];
    [by right; left | by right; left
     | right; right; eauto | right; right; eauto |].
  destruct (example_02_run (str (Some pk)) address e
              (state_after
                 (state_after (State input [])
                    [EvExists ANSIBLE_CFG; EvOpen ANSIBLE_CFG])
                 [EvExists hostfile; EvOpen hostfile]))
    as (shown & announced & _ & _ & ->).
  right; right. exists (Some pk), hostfile. eexists. split; [reflexivity|].
  cbn [state_after stdin trace]. destruct input; [done|].
  by destruct (Py.contains Py.NUL (update_cmd (str (Some pk)) address)).
Qed.

(** ** A configuration of plain values *)

Lemma lstrip_id (s : string) :
  Py.starts_with_space s = false → Py.lstrip s = s.
Proof. destruct s as [|c s]; [done|]. cbn. by intros ->. Qed.

Lemma strip_fixed (s : string) :
  Py.strip s = s →
  Py.starts_with_space s = false ∧ Py.ends_with_space s = false.
Proof.
  intros Hs. destruct (strip_spec s) as (l & r & _ & _ & _ & Hst & Hen).
  by rewrite Hs in Hst, Hen.
Qed.

Lemma strip_not_empty (s : string) :
  Py.starts_with_space s = false → s ≠ EmptyString →
  Py.strip s ≠ EmptyString.
Proof.
  intros Hst Hne Hstrip. unfold Py.strip in Hstrip.
  rewrite (lstrip_id s Hst) in Hstrip.
  destruct (rstrip_spec s) as (r & Hr & Hsp & _). rewrite Hstrip in Hr.
  change (EmptyString +:+ r) with r in Hr. subst r.
  destruct s as [|c s]; [done|]. cbn in Hst, Hsp. by rewrite Hst in Hsp.
Qed.

Lemma contains_app (c : ascii) (s t : string) :
  Py.contains c (s +:+ t) = Py.contains c s || Py.contains c t.
Proof.
  induction s as [|d s IH]; [reflexivity|].
  rewrite string_app_cons. cbn. by rewrite IH, orb_assoc.
Qed.

Lemma last_contains (s : string) (c : ascii) :
  Py.last s = Some c → Py.contains c s = true.
Proof.
  induction s as [|d s IH]; [done|]. cbn [Py.last Py.contains].
  destruct s as [|d' s'].
  - intros [= ->]. by rewrite Ascii.eqb_refl.
  - intros Hl. rewrite (IH Hl). apply orb_true_r.
Qed.

Lemma find_not_contains (c : ascii) (s : string) :
  Py.contains c s = false → Py.find c s = None.
Proof.
  induction s as [|d s IH]; [done|]. cbn.
  destruct (Ascii.eqb c d); [done|]. intros Hs. by rewrite (IH Hs).
Qed.

Lemma take_app_length (s t : string) :
  Py.take (String.length s) (s +:+ t) = s.
Proof.
  induction s as [|c s IH]; [by destruct t|].
  rewrite string_app_cons. cbn. by rewrite IH.
Qed.

Lemma drop_app_length (s t : string) :
  Py.drop (String.length s) (s +:+ t) = t.
Proof.
  induction s as [|c s IH]; [by destruct t|]. by rewrite string_app_cons.
Qed.

Lemma find_vi_app (s t : string) (vi : ascii) :
  find_vi s = None → Ascii.eqb vi ":" || Ascii.eqb vi "=" = true →
  find_vi (s +:+ String vi t) = Some (String.length s).
Proof.
  intros Hs Hvi. induction s as [|c s IH].
  - change (EmptyString +:+ String vi t) with (String vi t).
    cbn [find_vi String.length]. by rewrite Hvi.
  - rewrite string_app_cons. cbn in *.
    destruct (Ascii.eqb c ":" || Ascii.eqb c "="); [done|].
    destruct (find_vi s); [done|]. by rewrite IH.
Qed.

Lemma find_vi_app_None (s t : string) :
  find_vi s = None → find_vi t = None → find_vi (s +:+ t) = None.
Proof.
  intros Hs Ht. induction s as [|c s IH]; [done|].
  rewrite string_app_cons. cbn in *.
  destruct (Ascii.eqb c ":" || Ascii.eqb c "="); [done|].
  destruct (find_vi s); [done|]. by rewrite IH.
Qed.

Lemma find_vi_all_space (s : string) :
  Py.all_space s = true → find_vi s = None.
Proof.
  induction s as [|c s IH]; [done|]. cbn.
  intros [Hc Hs]%andb_true_iff. rewrite (IH Hs).
  destruct (Ascii.eqb c ":") eqn:H1.
  { apply Ascii.eqb_eq in H1 as ->. done. }
  destruct (Ascii.eqb c "=") eqn:H2; [|done].
  apply Ascii.eqb_eq in H2 as ->. done.
Qed.

Lemma lstrip_app_space (sp s : string) :
  Py.all_space sp = true → Py.lstrip (sp +:+ s) = Py.lstrip s.
Proof.
  induction sp as [|c sp IH]; [done|]. rewrite string_app_cons. cbn.
  intros [-> Hsp]%andb_true_iff. by apply IH.
Qed.

Lemma rstrip_app_space (s sp : string) :
  Py.all_space sp = true → Py.rstrip (s +:+ sp) = Py.rstrip s.
Proof.
  intros Hsp. unfold Py.rstrip.
  rewrite string_rev_app_distr, lstrip_app_space; [done|].
  by rewrite all_space_rev.
Qed.

(** The lines of a text that starts with a line. *)
Lemma readlines_app_line (s rest : string) :
  Py.contains Py.newline s = false →
  Py.readlines (s +:+ nl +:+ rest) = (s +:+ nl) :: Py.readlines rest.
Proof.
  induction s as [|c s IH]; [done|]. rewrite !string_app_cons.
  cbn [Py.contains Py.readlines]. rewrite Ascii.eqb_sym.
  destruct (Ascii.eqb c Py.newline); [done|]. cbn [orb]. intros Hs.
  by rewrite (IH Hs).
Qed.

Lemma readlines_last_line (s : string) :
  s ≠ EmptyString → Py.contains Py.newline s = false →
  Py.readlines s = [s].
Proof.
  induction s as [|c s IH]; [done|]. intros _.
  cbn [Py.contains Py.readlines]. rewrite Ascii.eqb_sym.
  destruct (Ascii.eqb c Py.newline); [done|]. cbn [orb]. intros Hs.
  destruct s as [|d s']; [done|]. by rewrite IH.
Qed.

(** The value group of an option line with a plain value. *)
Lemma value_group_plain (v tail : string) :
  Py.strip v = v → Py.contains Py.newline v = false →
  tail = EmptyString ∨ tail = nl →
  value_group (v +:+ tail) = Some v.
Proof.
  intros Hstrip Hnl Htail. destruct (strip_fixed v Hstrip) as [Hst _].
  destruct v as [|c v'] eqn:Hv; [by destruct Htail as [-> | ->]|].
  rewrite <- Hv in *. clear Hstrip.
  assert (Py.lstrip (v +:+ tail) = v +:+ tail) as Hl.
  { apply lstrip_id. rewrite Hv, string_app_cons. by rewrite Hv in Hst. }
  unfold value_group. rewrite Hl.
  destruct (v +:+ tail) as [|c0 w] eqn:Hw.
  { rewrite Hv, string_app_cons in Hw. discriminate Hw. }
  rewrite <- Hw. clear Hw Hl c0 w.
  destruct Htail as [-> | ->].
  - rewrite string_app_nil_r.
    destruct (Py.last v) as [d|] eqn:Hlast; [|by rewrite Hnl].
    destruct (Ascii.eqb d Py.newline) eqn:Hd; [|by rewrite Hnl].
    apply Ascii.eqb_eq in Hd as ->. apply last_contains in Hlast. congruence.
  - unfold nl. rewrite last_snoc, Ascii.eqb_refl.
    replace (String.length (v +:+ String Py.newline EmptyString) - 1)%nat
      with (String.length v).
    2:{ rewrite string_length_app. cbn. lia. }
    by rewrite take_app_length, Hnl.
Qed.

Lemma plain_inv (v : string) :
  plain v = true →
  Py.strip v = v ∧ Py.contains Py.newline v = false
  ∧ Py.contains ";" v = false ∧ Py.contains "%" v = false
  ∧ v ≠ two_quotes.
Proof.
  unfold plain. rewrite !andb_true_iff, !negb_true_iff.
  intros [[[[H1 H2] H3] H4] H5].
  apply bool_decide_eq_true in H1. apply bool_decide_eq_false in H5. done.
Qed.

Lemma drop_app_cons (s t : string) (c : ascii) :
  Py.drop (S (String.length s)) (s +:+ String c t) = t.
Proof.
  induction s as [|d s IH]; [by destruct t|]. by rewrite string_app_cons.
Qed.

Lemma plain_sep_inv (s : separator) :
  plain_sep s = true →
  Py.all_space (before s) = true
  ∧ Py.contains Py.newline (before s) = false
  ∧ Ascii.eqb (sign s) ":" || Ascii.eqb (sign s) "=" = true
  ∧ Py.all_space (after s) = true
  ∧ Py.contains Py.newline (after s) = false.
Proof.
  unfold plain_sep. rewrite !andb_true_iff, !negb_true_iff. tauto.
Qed.

Lemma value_group_app_space (sp rest : string) :
  Py.all_space sp = true → value_group (sp +:+ rest) = value_group rest.
Proof. intros Hsp. unfold value_group. by rewrite lstrip_app_space. Qed.

(** The text of an option line, with the separator in the middle. *)
Lemma option_line_eq (name : string) (s : separator) (rest : string) :
  name +:+ sep_text s +:+ rest
  = (name +:+ before s) +:+ String (sign s) (after s +:+ rest).
Proof.
  unfold sep_text. by rewrite (string_app_assoc (before s)), string_app_assoc.
Qed.

(** An option line with a plain name and a plain value sets the option
    in the section that is being read. *)
Lemma read_line_option (r : reading) (cur : cursor) (lineno : nat)
    (name : string) (s : separator) (v tail : string) :
  plain_name name = true → plain_sep s = true → plain v = true →
  tail = EmptyString ∨ tail = nl →
  cursect r = Some cur →
  read_line false lineno (name +:+ sep_text s +:+ v +:+ tail) r
  = Ret (cursect_set r cur (optionxform name) (Some [v])
           (Some (optionxform name))).
Proof.
  intros Hname Hs Hv Htail Hcur.
  destruct (plain_inv v Hv) as (Hstrip & Hnl & Hsemi & _ & Hquotes).
  destruct (plain_sep_inv s Hs) as (Hb & _ & Hsign & Ha & _).
  rewrite option_line_eq.
  destruct name as [|c name']; [done|].
  cbn [plain_name] in Hname.
  rewrite !andb_true_iff, !negb_true_iff in Hname.
  destruct Hname as [[[[[[Hsp Hcomment] Hbracket] Hrem] Hvi] Hrstrip] _].
  apply bool_decide_eq_true in Hvi, Hrstrip.
  assert (find_vi (String c name' +:+ before s) = None) as Hvi'.
  { apply find_vi_app_None; [done | by apply find_vi_all_space]. }
  rewrite !string_app_cons in *.
  set (opt := name' +:+ before s) in *.
  set (rest := opt +:+ String (sign s) (after s +:+ v +:+ tail)).
  unfold read_line.
  assert (is_blank_or_comment (String c rest) = false) as ->.
  { unfold is_blank_or_comment. rewrite bool_decide_eq_false_2; [done|].
    by apply strip_not_empty. }
  assert (is_rem (String c rest) = false) as ->.
  { unfold is_rem. destruct (String.words _); [done|].
    rewrite Hrem. apply andb_false_r. }
  cbn [Py.starts_with_space]. rewrite Hsp.
  unfold read_header_or_option. cbn [SECTCRE]. rewrite Hbracket, Hcur.
  assert (OPTCRE false (String c rest) = Some (String c opt, Some v)) as ->.
  { unfold OPTCRE. rewrite Hsp.
    change (String c rest)
      with (String c opt +:+ String (sign s) (after s +:+ v +:+ tail)).
    rewrite (find_vi_app _ _ _ Hvi' Hsign). cbn [String.length].
    change (String c opt +:+ String (sign s) (after s +:+ v +:+ tail))
      with (String c rest).
    change (Py.drop (S (S (String.length opt))) (String c rest))
      with (Py.drop (S (String.length opt)) rest).
    cbn [Py.take]. unfold rest. rewrite drop_app_cons, take_app_length.
    rewrite (value_group_app_space _ _ Ha).
    by rewrite (value_group_plain v tail Hstrip Hnl Htail). }
  cbv zeta. unfold opt. rewrite <- string_app_cons.
  rewrite (rstrip_app_space _ _ Hb), Hrstrip, Hsemi, Hstrip.
  by rewrite bool_decide_eq_false_2.
Qed.

Lemma interpolate_plain (map : string → option (option string))
    (section opt v : string) :
  Py.contains "%" v = false → _interpolate map section opt v = Ret v.
Proof.
  intros Hv. unfold _interpolate, MAX_INTERPOLATION_DEPTH.
  cbn [_interpolate_some]. destruct v as [|c v']; [reflexivity|].
  cbn [String.length interpolate_loop].
  by rewrite (find_not_contains _ _ Hv).
Qed.

(** [get] returns a stored value without [%] as it is. *)
Lemma get_stored (c : RawConfigParser) (section opt : string)
    (d : gmap string (option string)) (v : string) :
  _sections c !! section = Some d →
  d !! optionxform opt = Some (Some v) →
  Py.contains "%" v = false →
  get c section opt = Ret (Some v).
Proof.
  intros Hsec Hopt Hv. unfold get. rewrite Hsec.
  cbv beta iota zeta delta [mbind outcome_bind].
  unfold chain_lookup at 1. rewrite Hopt.
  by rewrite interpolate_plain.
Qed.

Lemma readlines_plain_cfg (sep1 sep2 : separator)
    (hostfile private_key tail : string) :
  plain_sep sep1 = true → plain_sep sep2 = true →
  plain hostfile = true → plain private_key = true →
  tail = EmptyString ∨ tail = nl →
  Py.readlines (plain_cfg sep1 sep2 hostfile private_key tail)
  = ["[defaults]" +:+ nl;
     "hostfile" +:+ sep_text sep1 +:+ hostfile +:+ nl;
     "private_key_file" +:+ sep_text sep2 +:+ private_key +:+ tail].
Proof.
  intros Hs1 Hs2 Hh Hk Htail.
  destruct (plain_inv _ Hh) as (_ & Hhnl & _).
  destruct (plain_inv _ Hk) as (_ & Hknl & _).
  destruct (plain_sep_inv _ Hs1) as (_ & Hb1 & _ & _ & Ha1).
  destruct (plain_sep_inv _ Hs2) as (_ & Hb2 & _ & _ & Ha2).
  assert (∀ s : separator,
            Py.contains Py.newline (before s) = false →
            Ascii.eqb (sign s) ":" || Ascii.eqb (sign s) "=" = true →
            Py.contains Py.newline (after s) = false →
            Py.contains Py.newline (sep_text s) = false) as Hsep.
  { intros s Hb Hsign Ha. unfold sep_text.
    rewrite contains_app, Hb. cbn. rewrite Ha.
    destruct (Ascii.eqb (sign s) ":") eqn:H1.
    { apply Ascii.eqb_eq in H1 as ->. done. }
    destruct (Ascii.eqb (sign s) "=") eqn:H2; [|done].
    apply Ascii.eqb_eq in H2 as ->. done. }
  pose proof (plain_sep_inv _ Hs1) as (_ & _ & Hsg1 & _ & _).
  pose proof (plain_sep_inv _ Hs2) as (_ & _ & Hsg2 & _ & _).
  unfold plain_cfg. rewrite readlines_app_line by reflexivity.
  rewrite readlines_app_line.
  2:{ rewrite !contains_app, Hhnl, (Hsep sep1) by done. reflexivity. }
  rewrite !(string_app_assoc "hostfile"), !(string_app_assoc (sep_text sep1)).
  assert (Py.readlines
            (("private_key_file" +:+ sep_text sep2 +:+ private_key) +:+ tail)
          = [("private_key_file" +:+ sep_text sep2 +:+ private_key) +:+ tail])
    as ->.
  { destruct Htail as [-> | ->].
    - rewrite string_app_nil_r. apply readlines_last_line; [done|].
      rewrite !contains_app, Hknl, (Hsep sep2) by done. reflexivity.
    - rewrite <- (string_app_nil_r (_ +:+ nl)), string_app_assoc.
      rewrite readlines_app_line; [done|].
      rewrite !contains_app, Hknl, (Hsep sep2) by done. reflexivity. }
  by rewrite !(string_app_assoc "private_key_file"),
       !(string_app_assoc (sep_text sep2)).
Qed.

Lemma _read_plain_cfg (sep1 sep2 : separator)
    (hostfile private_key tail : string) :
  plain_sep sep1 = true → plain_sep sep2 = true →
  plain hostfile = true → plain private_key = true →
  tail = EmptyString ∨ tail = nl →
  _read SafeConfigParser (plain_cfg sep1 sep2 hostfile private_key tail)
  = Ret (plain_parser hostfile private_key).
Proof.
  intros Hs1 Hs2 Hh Hk Htail. unfold _read.
  rewrite (readlines_plain_cfg _ _ _ _ _ Hs1 Hs2 Hh Hk Htail).
  cbn [read_lines allow_no_value SafeConfigParser].
  assert (read_line false 1 ("[defaults]" +:+ nl)
            (Reading (dict_as_lines <$> _sections SafeConfigParser)
               (dict_as_lines (_defaults SafeConfigParser)) None None [])
          = Ret after_header) as ->.
  { vm_compute. reflexivity. }
  cbv beta iota zeta delta [mbind outcome_bind].
  rewrite (read_line_option after_header (InSection "defaults") 2
             "hostfile" sep1 hostfile nl) by (done || by right).
  rewrite (read_line_option _ (InSection "defaults") 3
             "private_key_file" sep2 private_key tail) by done.
  vm_compute. reflexivity.
Qed.

(** X12: what the reader makes of a [defaults] section with the two
    options as plain values. *)
Theorem plain_config_gives_key_and_hostfile (e : env) (st : state)
    (sep1 sep2 : separator) (hostfile private_key tail : string) :
  plain_sep sep1 = true → plain_sep sep2 = true →
  plain hostfile = true → plain private_key = true →
  tail = EmptyString ∨ tail = nl →
  fs e !! ANSIBLE_CFG
  = Some (File (plain_cfg sep1 sep2 hostfile private_key tail)) →
  get_private_key_and_hostfile e st
  = (Ret (Some private_key, hostfile),
     state_after st [EvExists ANSIBLE_CFG; EvOpen ANSIBLE_CFG]).
Proof.
  intros Hs1 Hs2 Hh Hk Htail Hfs.
  destruct (plain_inv _ Hh) as (_ & _ & _ & Hhpct & _).
  destruct (plain_inv _ Hk) as (_ & _ & _ & Hkpct & _).
  rewrite (get_private_key_and_hostfile_found e st _ Hfs). cbv zeta.
  cbn [config_of]. rewrite (_read_plain_cfg _ _ _ _ _ Hs1 Hs2 Hh Hk Htail).
  rewrite (get_stored (plain_parser hostfile private_key) "defaults"
             "hostfile" _ hostfile eq_refl eq_refl Hhpct).
  by rewrite (get_stored (plain_parser hostfile private_key) "defaults"
                "private_key_file" _ private_key eq_refl eq_refl Hkpct).
Qed.

Lemma plain_config_gives_key_and_hostfile_witness :
  get_private_key_and_hostfile env_spaced_cfg (State [] [])
  = (Ret (Some "/home/me/aws key.pem", "/etc/ansible/hosts"),
     state_after (State [] []) [EvExists ANSIBLE_CFG; EvOpen ANSIBLE_CFG]).
Proof.
  apply (plain_config_gives_key_and_hostfile env_spaced_cfg (State [] [])
           (Separator " " "=" " ") (Separator EmptyString ":" " ")
           "/etc/ansible/hosts" "/home/me/aws key.pem" nl).
  - vm_compute. reflexivity.
  - vm_compute. reflexivity.
  - vm_compute. reflexivity.
  - vm_compute. reflexivity.
  - by right.
  - vm_compute. reflexivity.
Defined.

(** ** The test [hostfile is None] *)

(** X13: the branch of [get_private_key_and_hostfile] under
    [if hostfile is None] is dead: in no run does it print its message or
    leave with [sys.exit(2)], and when the function returns, the key and
    the host file are both strings. *)
Theorem hostfile_is_never_None (e : env) (input : list string) :
  (run get_private_key_and_hostfile e input).1 ≠ SystemExit 2
  ∧ (EvPrint "We can't read the hostfile from ansible.cfg"
     ∉ trace (run get_private_key_and_hostfile e input).2)
  ∧ ∀ private_key hostfile,
      (run get_private_key_and_hostfile e input).1
      = Ret (private_key, hostfile) →
      is_Some private_key.
Proof.
  unfold run.
  destruct (fs e !! ANSIBLE_CFG) as [n|] eqn:Hfs.
  - destruct (get_private_key_and_hostfile_cases e (State input []))
      as [[Hnone _] | [_ [(pk & h & ->) | [err ->]]]]; [congruence| |];
      cbn [fst snd state_after trace app].
    + repeat split; [done | | by intros ? ? [= <- _]; eauto].
      intros Hin. repeat (apply elem_of_cons in Hin as [Hin|Hin]; [done|]).
      by apply elem_of_nil in Hin.
    + repeat split; [done | | done].
      intros Hin. repeat (apply elem_of_cons in Hin as [Hin|Hin]; [done|]).
      by apply elem_of_nil in Hin.
  - destruct (get_private_key_and_hostfile_missing e (State input []) Hfs)
      as (text & Htext & ->).
    cbn [fst snd state_after trace app].
    repeat split; [done | | done].
    vm_compute in Htext. injection Htext as <-.
    intros Hin. repeat (apply elem_of_cons in Hin as [Hin|Hin]; [done|]).
    by apply elem_of_nil in Hin.
Qed.

(** ** A value with a lone percent sign *)

Lemma get_drop (p i : nat) (s : string) :
  String.get i (Py.drop p s) = String.get (p + i) s.
Proof.
  revert s. induction p as [|p IH]; intros [|c s]; cbn; done.
Qed.

Lemma interpolate_lone_percent (map : string → option (option string))
    (section opt v : string) :
  lone_percent v = true →
  _interpolate map section opt v
  = Raise (ConfigError (InterpolationSyntaxError opt section)).
Proof.
  unfold lone_percent. intros Hv.
  unfold _interpolate, MAX_INTERPOLATION_DEPTH. cbn [_interpolate_some].
  destruct v as [|c v']; [done|]. cbn [String.length interpolate_loop].
  destruct (Py.find "%" (String c v')) as [p|]; [|done].
  rewrite get_drop, Nat.add_1_r.
  destruct (String.get (S p) (String c v')) as [d|]; [|done].
  apply andb_true_iff in Hv as [H1 H2]. apply negb_true_iff in H1, H2.
  by rewrite H1, H2.
Qed.

(** X14: a host file path with a lone [%] in the configuration makes the
    script fail: [SafeConfigParser.get] takes the sign for the start of a
    reference and raises [InterpolationSyntaxError]. *)
Theorem lone_percent_in_hostfile_raises (e : env) (st : state) (n : node)
    (config : RawConfigParser) (d : gmap string (option string))
    (v : string) :
  fs e !! ANSIBLE_CFG = Some n →
  config_of n = Ret config →
  _sections config !! "defaults" = Some d →
  d !! "hostfile" = Some (Some v) →
  lone_percent v = true →
  get_private_key_and_hostfile e st
  = (Raise (ConfigError (InterpolationSyntaxError "hostfile" "defaults")),
     state_after st [EvExists ANSIBLE_CFG; EvOpen ANSIBLE_CFG]).
Proof.
  intros Hfs Hconfig Hsec Hopt Hv.
  rewrite (get_private_key_and_hostfile_found e st n Hfs), Hconfig. cbv zeta.
  assert (get config "defaults" "hostfile"
          = Raise (ConfigError (InterpolationSyntaxError "hostfile" "defaults")))
    as ->; [|done].
  unfold get. rewrite Hsec. cbv beta iota zeta delta [mbind outcome_bind].
  unfold chain_lookup at 1.
  change (optionxform "hostfile") with "hostfile". rewrite Hopt.
  by rewrite interpolate_lone_percent.
Qed.

Lemma lone_percent_in_hostfile_raises_witness :
  get_private_key_and_hostfile env_percent (State [] [])
  = (Raise (ConfigError (InterpolationSyntaxError "hostfile" "defaults")),
     state_after (State [] []) [EvExists ANSIBLE_CFG; EvOpen ANSIBLE_CFG]).
Proof.
  eapply (lone_percent_in_hostfile_raises env_percent (State [] [])).
  - vm_compute. reflexivity.
  - vm_compute. reflexivity.
  - vm_compute. reflexivity.
  - vm_compute. reflexivity.
  - vm_compute. reflexivity.
Defined.

(** ** A NUL byte in the command *)



(** The script on a host file whose second line holds a NUL byte. *)
Example NUL_in_address :
  (run main env_NUL_address [EmptyString]).1 = Raise TypeError
  ∧ exit_status (run main env_NUL_address [EmptyString]).1 = 1
  ∧ calls (trace (run main env_NUL_address [EmptyString]).2)
    = [update_cmd "/tmp/key.pem" NUL_address]
  ∧ spawned (trace (run main env_NUL_address [EmptyString]).2) = [].
Proof. vm_compute. repeat split; reflexivity. Qed.
